(** * The HDF5 chunked writer of mflow_node_processors

    A shallow embedding of [mflow_processor/h5_chunked_writer.py]
    (class [HDF5ChunkedWriterProcessor]) together with a small model of the
    h5py objects it drives, and the properties of the frame-to-container
    storage engine proved about it.

    Python integers are unbounded: they are [Z], and [//] is [Z.div]
    (both round towards minus infinity for a positive divisor).  The writer
    object and the files it touches form one explicit state that is threaded
    through a state-and-exception monad: a Python exception leaves every
    mutation performed before it in place. *)

From stdpp Require Import gmap strings list fin_maps pretty.

Local Open Scope Z_scope.

(** ** Data *)

Definition bytes := list Byte.byte.

(** The accessors of an mflow message that the writer calls. *)
Record message := {
  get_frame_index : Z;
  get_frame_size : Z * Z;
  get_frame_dtype : string;
  get_data : bytes
}.

(** An h5py dataset: its creation properties, its extent along axis 0
    ([shape[0]]) and the raw chunks written so far, keyed by slot. *)
Record dataset := {
  ds_name : option string;
  ds_frame_size : Z * Z;
  ds_dtype : string;
  ds_compression : option Z;
  ds_compression_opts : option (list Z);
  ds_shape0 : Z;
  ds_chunks : gmap Z bytes
}.

(** An HDF5 file on disk. [h5_open] tells whether a handle on it is valid. *)
Record h5file := {
  h5_open : bool;
  h5_dataset : option dataset;
  h5_attrs : gmap string Z;
  h5_group_attrs : gmap string string;
  h5_extra_datasets : gmap string string;
  h5_dataset_attrs : gmap string string
}.

(** The public parameters of the writer (set through the control plane). *)
Record parameters := {
  dataset_name : option string;
  output_file : option string;
  frames_per_file : option Z;
  compression : option Z;
  compression_opts : option (list Z);
  h5_group_attributes : gmap string string;
  h5_dataset_attributes : gmap string string;
  h5_datasets : gmap string string
}.

(** Calls that reached the storage backend, in the order they were made. *)
Inductive event :=
  | EvFileOpen (filename : string)
  | EvCreateDataset (filename : string)
  | EvExpand (filename : string) (frame_index : Z)
  | EvCompact (filename : string) (max_frame_index : Z)
  | EvSetAttributes (filename : string) (low high : Z)
  | EvPopulate (filename : string)
  | EvFileClose (filename : string)
  | EvWriteChunk (filename : string) (slot : Z).

(** The writer's private fields, its parameters, and the world it acts on.
    A file or dataset handle is the name of the file it belongs to.
    [_current_dataset_size] is not assigned by [__init__]: it is [None]
    until [_create_file] sets it. *)
Record state := {
  _file : option string;
  _dataset : option string;
  _max_frame_index : Z;
  _current_frame_chunk : option Z;
  _current_dataset_size : option Z;
  params : parameters;
  fs : gmap string h5file;
  log : list event
}.

Inductive exn :=
  | AttributeError
  | TypeError
  | OverflowError
  | OSError
  | ValueError (msg : string).

Inductive result (A : Type) :=
  | Ok (a : A)
  | Raise (e : exn).
Arguments Ok {A} a.
Arguments Raise {A} e.

(** ** The state-and-exception monad *)

Definition M (A : Type) : Type := state -> result A * state.

Definition ret {A} (a : A) : M A := fun s => (Ok a, s).
Definition raise {A} (e : exn) : M A := fun s => (Raise e, s).
Definition bind {A B} (c : M A) (k : A -> M B) : M B :=
  fun s => match c s with
           | (Ok a, s') => k a s'
           | (Raise e, s') => (Raise e, s')
           end.
Definition get : M state := fun s => (Ok s, s).
Definition modify (f : state -> state) : M unit := fun s => (Ok tt, f s).

Notation "'let*' x ':=' c 'in' k" := (bind c (fun x => k))
  (at level 10, x name, c at level 100, k at level 200).
Notation "c '>>' k" := (bind c (fun _ => k))
  (at level 100, k at level 200, right associativity).

Definition when (b : bool) (c : M unit) : M unit := if b then c else ret tt.

(** Field assignments. *)
Definition set_file v s :=
  {| _file := v; _dataset := _dataset s; _max_frame_index := _max_frame_index s;
     _current_frame_chunk := _current_frame_chunk s;
     _current_dataset_size := _current_dataset_size s;
     params := params s; fs := fs s; log := log s |}.
Definition set_dataset v s :=
  {| _file := _file s; _dataset := v; _max_frame_index := _max_frame_index s;
     _current_frame_chunk := _current_frame_chunk s;
     _current_dataset_size := _current_dataset_size s;
     params := params s; fs := fs s; log := log s |}.
Definition set_max_frame_index v s :=
  {| _file := _file s; _dataset := _dataset s; _max_frame_index := v;
     _current_frame_chunk := _current_frame_chunk s;
     _current_dataset_size := _current_dataset_size s;
     params := params s; fs := fs s; log := log s |}.
Definition set_current_frame_chunk v s :=
  {| _file := _file s; _dataset := _dataset s; _max_frame_index := _max_frame_index s;
     _current_frame_chunk := v;
     _current_dataset_size := _current_dataset_size s;
     params := params s; fs := fs s; log := log s |}.
Definition set_current_dataset_size v s :=
  {| _file := _file s; _dataset := _dataset s; _max_frame_index := _max_frame_index s;
     _current_frame_chunk := _current_frame_chunk s;
     _current_dataset_size := v;
     params := params s; fs := fs s; log := log s |}.
(** One backend call: the file [name] becomes [file], and [e] is recorded. *)
Definition commit (name : string) (file : h5file) (e : event) s :=
  {| _file := _file s; _dataset := _dataset s; _max_frame_index := _max_frame_index s;
     _current_frame_chunk := _current_frame_chunk s;
     _current_dataset_size := _current_dataset_size s;
     params := params s; fs := <[name := file]> (fs s); log := log s ++ [e] |}.

(** ** Python truthiness and string formatting *)

(** [bool(n)] for an optional integer: [None] and [0] are false. *)
Definition truthy (n : option Z) : bool :=
  match n with
  | Some n => negb (n =? 0)
  | None => false
  end.

(** [bool(s)] for an optional string: [None] and the empty string are false. *)
Definition truthy_str (o : option string) : bool :=
  match o with
  | Some s => negb (String.eqb s EmptyString)
  | None => false
  end.

(** ["%s" % x] for an optional string. *)
Definition py_str (o : option string) : string :=
  match o with
  | Some s => s
  | None => "None"
  end.

(** The line feed that ends each line of an error message. *)
Definition newline : string := String (Ascii.ascii_of_nat 10) EmptyString.

(** ["%s:%s" % (dataset_name, suffix)]. *)
Definition attr_key (name : option string) (suffix : string) : string :=
  (py_str name +:+ ":" +:+ suffix)%string.

(** ** The storage backend

    [h5py] is an external library and the helpers of
    [mflow_processor.utils.h5_utils] are not part of the sources at hand.
    What the writer relies on is collected here.  Three quantities are left
    open: the result of [str.format] on the output path, the initial extent
    of a new dataset, and the extent chosen when a dataset is grown. *)

Section Writer.

(** [output_file.format(chunk_number=n)]. *)
Variable format_chunk_number : string -> Z -> string.
(** The extent along axis 0 of a dataset just made by [create_dataset]. *)
Variable initial_dataset_size : Z.
(** The extent along axis 0 after [expand_dataset], from the current extent
    and the frame index that did not fit. *)
Variable grown_size : Z -> Z -> Z.

(** A plugin observes the writer and the message and may raise. The list of
    plugins is fixed when the writer is constructed. *)
Definition plugin : Type := state -> message -> option exn.
Variable _plugins : list plugin.

(** Resolve a handle to the open file behind it. Attribute access on [None]
    raises [AttributeError]; h5py raises [ValueError] on an invalid id. *)
Definition the_open_file (h : option string) : M (string * h5file) :=
  let* s := get in
  match h with
  | None => raise AttributeError
  | Some name =>
      match fs s !! name with
      | Some file =>
          if h5_open file then ret (name, file)
          else raise (ValueError "Not a file or dataset id")
      | None => raise (ValueError "Not a file or dataset id")
      end
  end.

(** Resolve a dataset handle to its file and its dataset. *)
Definition the_dataset (h : option string) : M (string * h5file * dataset) :=
  let* nf := the_open_file h in
  match h5_dataset (snd nf) with
  | Some ds => ret (nf, ds)
  | None => raise (ValueError "Not a file or dataset id")
  end.

Definition new_file : h5file :=
  {| h5_open := true; h5_dataset := None; h5_attrs := ∅;
     h5_group_attrs := ∅; h5_extra_datasets := ∅; h5_dataset_attrs := ∅ |}.

Definition with_dataset (ds : dataset) (file : h5file) : h5file :=
  {| h5_open := h5_open file; h5_dataset := Some ds; h5_attrs := h5_attrs file;
     h5_group_attrs := h5_group_attrs file;
     h5_extra_datasets := h5_extra_datasets file;
     h5_dataset_attrs := h5_dataset_attrs file |}.

(** [dataset.resize(n, axis=0)]: chunks beyond the new extent are dropped. *)
Definition resize (n : Z) (ds : dataset) : dataset :=
  {| ds_name := ds_name ds; ds_frame_size := ds_frame_size ds;
     ds_dtype := ds_dtype ds; ds_compression := ds_compression ds;
     ds_compression_opts := ds_compression_opts ds;
     ds_shape0 := n;
     ds_chunks := filter (fun kv => kv.1 < n) (ds_chunks ds) |}.

(** [h5py.File(filename, "w")]: create the file, truncating one that
    exists. A file that is currently open cannot be truncated. *)
Definition File_w (filename : string) : M (option string) :=
  let* s := get in
  match fs s !! filename with
  | Some file =>
      if h5_open file then raise OSError
      else modify (commit filename new_file (EvFileOpen filename)) >>
           ret (Some filename)
  | None => modify (commit filename new_file (EvFileOpen filename)) >>
            ret (Some filename)
  end.

(** [file.close()]. *)
Definition File_close (h : option string) : M unit :=
  let* nf := the_open_file h in
  modify (commit nf.1
            {| h5_open := false; h5_dataset := h5_dataset nf.2;
               h5_attrs := h5_attrs nf.2;
               h5_group_attrs := h5_group_attrs nf.2;
               h5_extra_datasets := h5_extra_datasets nf.2;
               h5_dataset_attrs := h5_dataset_attrs nf.2 |}
            (EvFileClose nf.1)).

(** [dataset.shape[0]]. *)
Definition shape0 (h : option string) : M Z :=
  let* d := the_dataset h in ret (ds_shape0 d.2).

(** [dataset.id.write_direct_chunk((slot, 0, 0), data)]: the payload is
    stored as it is. The offsets are unsigned, so a negative slot raises
    [OverflowError]; an offset outside the extent is refused by HDF5. *)
Definition write_direct_chunk (h : option string) (slot : Z) (data : bytes) : M unit :=
  let* d := the_dataset h in
  if slot <? 0 then raise OverflowError
  else if ds_shape0 d.2 <=? slot then raise OSError
  else
    modify (commit d.1.1
              (with_dataset
                 {| ds_name := ds_name d.2; ds_frame_size := ds_frame_size d.2;
                    ds_dtype := ds_dtype d.2; ds_compression := ds_compression d.2;
                    ds_compression_opts := ds_compression_opts d.2;
                    ds_shape0 := ds_shape0 d.2;
                    ds_chunks := <[slot := data]> (ds_chunks d.2) |} d.1.2)
              (EvWriteChunk d.1.1 slot)).

(** Modelled from the spec: [create_dataset] of [h5_utils], which is not in
    the sources. It creates the primary dataset named per configuration,
    shaped per frame shape and element type, with the configured compression
    filter and options, at the backend's initial allocation. *)
Definition create_dataset (h : option string) (name : option string)
    (frame_size : Z * Z) (dtype : string)
    (compression : option Z) (compression_opts : option (list Z)) : M (option string) :=
  let* nf := the_open_file h in
  modify (commit nf.1
            (with_dataset
               {| ds_name := name; ds_frame_size := frame_size; ds_dtype := dtype;
                  ds_compression := compression;
                  ds_compression_opts := compression_opts;
                  ds_shape0 := initial_dataset_size; ds_chunks := ∅ |} nf.2)
            (EvCreateDataset nf.1)) >>
  ret h.

(** Modelled from the spec: [expand_dataset] of [h5_utils], which is not in
    the sources. It grows the backing dataset (to at least slot + 1, by a
    growth strategy that is the backend's choice) and returns the backend's
    actual new size. *)
Definition expand_dataset (h : option string) (frame_index : Z) : M Z :=
  let* d := the_dataset h in
  let n := grown_size (ds_shape0 d.2) frame_index in
  modify (commit d.1.1 (with_dataset (resize n d.2) d.1.2)
            (EvExpand d.1.1 frame_index)) >>
  ret n.

(** Modelled from the spec: [compact_dataset] of [h5_utils], which is not in
    the sources. It resizes the dataset down to max_written_slot + 1, and is
    a no-op if nothing was written, which the spec's data model marks with
    max_written_slot = -1. *)
Definition compact_dataset (h : option string) (max_frame_index : Z) : M unit :=
  let* d := the_dataset h in
  if max_frame_index <? 0 then ret tt
  else
    modify (commit d.1.1 (with_dataset (resize (max_frame_index + 1) d.2) d.1.2)
              (EvCompact d.1.1 max_frame_index)).

(** Modelled from the spec: [set_dataset_attributes] of [h5_utils], which is
    not in the sources. It records the two frame numbers as attributes of
    the container under the given keys. *)
Definition set_dataset_attributes (h : option string)
    (low_key : string) (low : Z) (high_key : string) (high : Z) : M unit :=
  let* nf := the_open_file h in
  modify (commit nf.1
            {| h5_open := h5_open nf.2; h5_dataset := h5_dataset nf.2;
               h5_attrs := <[high_key := high]> (<[low_key := low]> (h5_attrs nf.2));
               h5_group_attrs := h5_group_attrs nf.2;
               h5_extra_datasets := h5_extra_datasets nf.2;
               h5_dataset_attrs := h5_dataset_attrs nf.2 |}
            (EvSetAttributes nf.1 low high)).

(** Modelled from the spec: [populate_h5_file] of [h5_utils], which is not
    in the sources. It writes the configured group attributes, dataset
    attributes and extra datasets verbatim. *)
Definition populate_h5_file (h : option string)
    (group_attributes datasets dataset_attributes : gmap string string) : M unit :=
  let* nf := the_open_file h in
  modify (commit nf.1
            {| h5_open := h5_open nf.2; h5_dataset := h5_dataset nf.2;
               h5_attrs := h5_attrs nf.2;
               h5_group_attrs := group_attributes ∪ h5_group_attrs nf.2;
               h5_extra_datasets := datasets ∪ h5_extra_datasets nf.2;
               h5_dataset_attrs := dataset_attributes ∪ h5_dataset_attrs nf.2 |}
            (EvPopulate nf.1)).

(** ** The writer *)

(** [HDF5ChunkedWriterProcessor.__init__]; the parameters all start unset. *)
Definition __init__ (disk : gmap string h5file) : state :=
  {| _file := None; _dataset := None; _max_frame_index := 0;
     _current_frame_chunk := None; _current_dataset_size := None;
     params := {| dataset_name := None; output_file := None;
                  frames_per_file := None; compression := None;
                  compression_opts := None; h5_group_attributes := ∅;
                  h5_dataset_attributes := ∅; h5_datasets := ∅ |};
     fs := disk; log := [] |}.

(** The control plane assigns the public parameters before a run. *)
Definition set_parameters (p : parameters) (s : state) : state :=
  {| _file := _file s; _dataset := _dataset s;
     _max_frame_index := _max_frame_index s;
     _current_frame_chunk := _current_frame_chunk s;
     _current_dataset_size := _current_dataset_size s;
     params := p; fs := fs s; log := log s |}.

Definition _validate_parameters : M unit :=
  let* s := get in
  let error_message := EmptyString in
  let error_message :=
    if negb (truthy_str (dataset_name (params s)))
    then (error_message +:+ "Parameter 'dataset_name' not set." +:+ newline)%string
    else error_message in
  let error_message :=
    if negb (truthy_str (output_file (params s)))
    then (error_message +:+ "Parameter 'output_file' not set." +:+ newline)%string
    else error_message in
  if negb (String.eqb error_message EmptyString) then raise (ValueError error_message)
  else ret tt.

Definition start : M unit := _validate_parameters.

(** [bool(self._file)]: an h5py file object is true while its id is valid. *)
Definition file_is_true (s : state) : bool :=
  match _file s with
  | Some name =>
      match fs s !! name with
      | Some file => h5_open file
      | None => false
      end
  | None => false
  end.

Definition _set_data_chunk_attributes : M unit :=
  let* s := get in
  let* min_frame_in_dataset :=
    (if truthy (frames_per_file (params s)) then
       match _current_frame_chunk s, frames_per_file (params s) with
       | Some chunk, Some n => ret ((chunk - 1) * n)
       | _, _ => raise TypeError
       end
     else ret 0) in
  let max_frame_in_dataset := _max_frame_index s + min_frame_in_dataset in
  set_dataset_attributes (_file s)
    (attr_key (dataset_name (params s)) "image_nr_low") (min_frame_in_dataset + 1)
    (attr_key (dataset_name (params s)) "image_nr_high") (max_frame_in_dataset + 1).

Definition _close_file : M unit :=
  let* s := get in
  compact_dataset (_dataset s) (_max_frame_index s) >>
  _set_data_chunk_attributes >>
  populate_h5_file (_file s) (h5_group_attributes (params s))
    (h5_datasets (params s)) (h5_dataset_attributes (params s)) >>
  File_close (_file s) >>
  modify (set_file None) >>
  modify (set_current_frame_chunk None) >>
  modify (set_max_frame_index 0).

Definition _create_file (frame_size : Z * Z) (dtype : string) (frame_chunk : Z) : M unit :=
  let* s := get in
  when (file_is_true s) _close_file >>
  let* filename :=
    match output_file (params s) with
    | Some template => ret (format_chunk_number template frame_chunk)
    | None => raise AttributeError
    end in
  let* f := File_w filename in
  modify (set_file f) >>
  let* d := create_dataset f (dataset_name (params s)) frame_size dtype
              (compression (params s)) (compression_opts (params s)) in
  modify (set_dataset d) >>
  let* n := shape0 d in
  modify (set_current_dataset_size (Some n)) >>
  modify (set_current_frame_chunk (Some frame_chunk)).

Definition _prepare_storage_for_frame (frame_index : Z) (frame_size : Z * Z)
    (dtype : string) : M Z :=
  let* s := get in
  let* frame_index :=
    (if truthy (frames_per_file (params s)) then
       match frames_per_file (params s) with
       | Some n =>
           let frame_chunk := frame_index / n + 1 in
           when (negb (bool_decide (_current_frame_chunk s = Some frame_chunk)))
             (_create_file frame_size dtype frame_chunk) >>
           ret (frame_index - (frame_chunk - 1) * n)
       | None => raise TypeError
       end
     else
       match _file s with
       | None => _create_file frame_size dtype 0 >> ret frame_index
       | Some _ => ret frame_index
       end) in
  let* s := get in
  let* size :=
    match _current_dataset_size s with
    | Some n => ret n
    | None => raise AttributeError
    end in
  when (negb (frame_index <? size))
    (let* n := expand_dataset (_dataset s) frame_index in
     modify (set_current_dataset_size (Some n))) >>
  let* s := get in
  when (_max_frame_index s <? frame_index)
    (modify (set_max_frame_index frame_index)) >>
  ret frame_index.

Fixpoint run_plugins (ps : list plugin) (message : message) : M unit :=
  match ps with
  | [] => ret tt
  | plugin_function :: ps =>
      let* s := get in
      match plugin_function s message with
      | Some e => raise e
      | None => run_plugins ps message
      end
  end.

Definition process_message (message : message) : M unit :=
  let frame_index := get_frame_index message in
  let* relative_frame_index :=
    _prepare_storage_for_frame frame_index (get_frame_size message)
      (get_frame_dtype message) in
  let frame_data := get_data message in
  let* s := get in
  write_direct_chunk (_dataset s) relative_frame_index frame_data >>
  run_plugins _plugins message.

Definition stop : M unit :=
  let* s := get in
  when (file_is_true s) _close_file.

(** ** Auxiliary notions used in the statements *)

(** [m] is the occupancy high-water-mark of a set of written chunks: no
    written slot lies above it, and it is a written slot unless it is 0. *)
Definition hwm (m : Z) (chunks : gmap Z bytes) : Prop :=
  (forall k, is_Some (chunks !! k) -> 0 <= k <= m) /\
  (m = 0 \/ is_Some (chunks !! m)).

(** The file an event addresses. *)
Definition event_file (e : event) : string :=
  match e with
  | EvFileOpen f | EvCreateDataset f | EvExpand f _ | EvCompact f _
  | EvSetAttributes f _ _ | EvPopulate f | EvFileClose f | EvWriteChunk f _ => f
  end.

(** Replaying one backend call against the container that is open, if any:
    opening needs that none is open, every other call addresses the open
    one, and closing leaves none open. [None] marks a violation. *)
Definition track (cur : option (option string)) (e : event) : option (option string) :=
  match cur with
  | None => None
  | Some None =>
      match e with
      | EvFileOpen f => Some (Some f)
      | _ => None
      end
  | Some (Some g) =>
      match e with
      | EvFileOpen _ => None
      | EvFileClose f => if bool_decide (f = g) then Some None else None
      | _ => if bool_decide (event_file e = g) then Some (Some g) else None
      end
  end.

(** The container left open by a log of backend calls, when at every
    instant of the log at most one container was open. *)
Definition open_after (l : list event) : option (option string) :=
  fold_left track l (Some None).

(** The state of a file once [_close_file] has finalized it. *)
Definition finalized_file (s : state) (file : h5file) (ds : dataset) (low : Z) : h5file :=
  {| h5_open := false;
     h5_dataset := Some (resize (_max_frame_index s + 1) ds);
     h5_attrs :=
       <[attr_key (dataset_name (params s)) "image_nr_high" := _max_frame_index s + low]>
         (<[attr_key (dataset_name (params s)) "image_nr_low" := low]> (h5_attrs file));
     h5_group_attrs := h5_group_attributes (params s) ∪ h5_group_attrs file;
     h5_extra_datasets := h5_datasets (params s) ∪ h5_extra_datasets file;
     h5_dataset_attrs := h5_dataset_attributes (params s) ∪ h5_dataset_attrs file |}.

(** The 1-based number of the first frame of the open container. *)
Definition image_nr_low (s : state) : Z :=
  match _current_frame_chunk s, frames_per_file (params s) with
  | Some chunk, Some n => if n =? 0 then 1 else (chunk - 1) * n + 1
  | _, _ => 1
  end.

(** The backend calls of one finalization of the file [f]. *)
Definition close_events (s : state) (f : string) : list event :=
  [EvCompact f (_max_frame_index s);
   EvSetAttributes f (image_nr_low s) (_max_frame_index s + image_nr_low s);
   EvPopulate f; EvFileClose f].

(** The writer after [_close_file] on the open file [f]. *)
Definition finalized (s : state) (f : string) (file : h5file) (ds : dataset) : state :=
  {| _file := None; _dataset := _dataset s; _max_frame_index := 0;
     _current_frame_chunk := None;
     _current_dataset_size := _current_dataset_size s;
     params := params s;
     fs := <[f := finalized_file s file ds (image_nr_low s)]> (fs s);
     log := log s ++ close_events s f |}.

(** The open container [f] of the writer, with its dataset [ds] and its
    chunk number [c]. *)
Definition open_core (s : state) (f : string) (file : h5file) (ds : dataset) (c : Z) : Prop :=
  fs s !! f = Some file /\ h5_open file = true /\ h5_dataset file = Some ds /\
  _dataset s = Some f /\
  _current_dataset_size s = Some (ds_shape0 ds) /\
  _current_frame_chunk s = Some c /\
  (truthy (frames_per_file (params s)) = false -> c = 0) /\
  (forall k, is_Some (ds_chunks ds !! k) -> 0 <= k < ds_shape0 ds).

(** What holds of the writer between two calls of its public methods. *)
Definition open_inv (s : state) (f : string) (file : h5file) (ds : dataset) (c : Z) : Prop :=
  open_core s f file ds c /\ 0 <= ds_shape0 ds /\
  hwm (_max_frame_index s) (ds_chunks ds).

Definition inv (s : state) : Prop :=
  match _file s with
  | None => _current_frame_chunk s = None /\ _max_frame_index s = 0
  | Some f => exists file ds c, open_inv s f file ds c
  end /\
  (forall g file, fs s !! g = Some file -> h5_open file = true -> _file s = Some g) /\
  open_after (log s) = Some (_file s).

(** A disk on which no file is open. *)
Definition all_closed (disk : gmap string h5file) : Prop :=
  forall g file, disk !! g = Some file -> h5_open file = false.

(** The container the writer holds open: its name, file and dataset. *)
Definition current (s : state) : option (string * h5file * dataset) :=
  match _file s with
  | Some f =>
      match fs s !! f with
      | Some file =>
          match h5_dataset file with
          | Some ds => if h5_open file then Some (f, file, ds) else None
          | None => None
          end
      | None => None
      end
  | None => None
  end.

(** The writer once the container it holds, if any, has been finalized. *)
Definition closed (s : state) : state :=
  match current s with
  | Some (f, file, ds) => finalized s f file ds
  | None => s
  end.

(** The writer after a new container [filename] was created for [chunk]. *)
Definition created (s : state) (filename : string) (frame_size : Z * Z)
    (dtype : string) (chunk : Z) : state :=
  {| _file := Some filename; _dataset := Some filename;
     _max_frame_index := _max_frame_index s;
     _current_frame_chunk := Some chunk;
     _current_dataset_size := Some initial_dataset_size;
     params := params s;
     fs := <[filename :=
               with_dataset
                 {| ds_name := dataset_name (params s);
                    ds_frame_size := frame_size; ds_dtype := dtype;
                    ds_compression := compression (params s);
                    ds_compression_opts := compression_opts (params s);
                    ds_shape0 := initial_dataset_size; ds_chunks := ∅ |}
                 new_file]> (fs s);
     log := log s ++ [EvFileOpen filename; EvCreateDataset filename] |}.

(** The chunk a frame index belongs to, and its slot in that chunk, as
    [_prepare_storage_for_frame] computes them. *)
Definition chunk_of (p : parameters) (frame_index : Z) : Z :=
  match frames_per_file p with
  | Some n => if n =? 0 then 0 else frame_index / n + 1
  | None => 0
  end.

Definition slot_of (p : parameters) (frame_index : Z) : Z :=
  match frames_per_file p with
  | Some n => if n =? 0 then frame_index
              else frame_index - (frame_index / n + 1 - 1) * n
  | None => frame_index
  end.

(** The writer once the container for [chunk] is the open one: the one it
    holds if its chunk number is [chunk], a new one otherwise. *)
Definition target (s : state) (template : string) (frame_size : Z * Z)
    (dtype : string) (chunk : Z) : state :=
  if bool_decide (_current_frame_chunk s = Some chunk) then s
  else created (closed s) (format_chunk_number template chunk) frame_size dtype chunk.

(** The writer once the open dataset can hold [slot]. *)
Definition fitted (slot : Z) (s : state) : state :=
  match current s with
  | Some (f, file, ds) =>
      if slot <? ds_shape0 ds then s
      else set_current_dataset_size (Some (grown_size (ds_shape0 ds) slot))
             (commit f (with_dataset (resize (grown_size (ds_shape0 ds) slot) ds) file)
                (EvExpand f slot) s)
  | None => s
  end.

(** The update of the high-water-mark. *)
Definition marked (slot : Z) (s : state) : state :=
  if _max_frame_index s <? slot then set_max_frame_index slot s else s.

(** The writer once the payload is stored at [slot] of the open dataset. *)
Definition stored (slot : Z) (data : bytes) (s : state) : state :=
  match current s with
  | Some (f, file, ds) =>
      commit f
        (with_dataset
           {| ds_name := ds_name ds; ds_frame_size := ds_frame_size ds;
              ds_dtype := ds_dtype ds; ds_compression := ds_compression ds;
              ds_compression_opts := ds_compression_opts ds;
              ds_shape0 := ds_shape0 ds;
              ds_chunks := <[slot := data]> (ds_chunks ds) |} file)
        (EvWriteChunk f slot) s
  | None => s
  end.

(** The state in which [process_message] calls [write_direct_chunk]. *)
Definition prepared (s : state) (template : string) (m : message) : state :=
  marked (slot_of (params s) (get_frame_index m))
    (fitted (slot_of (params s) (get_frame_index m))
       (target s template (get_frame_size m) (get_frame_dtype m)
          (chunk_of (params s) (get_frame_index m)))).

(** The two halves of [_prepare_storage_for_frame]: choosing the container,
    and making room in it and moving the high-water-mark. *)
Definition route (frame_index : Z) (frame_size : Z * Z) (dtype : string) : M Z :=
  let* s := get in
  if truthy (frames_per_file (params s)) then
    match frames_per_file (params s) with
    | Some n =>
        let frame_chunk := frame_index / n + 1 in
        when (negb (bool_decide (_current_frame_chunk s = Some frame_chunk)))
          (_create_file frame_size dtype frame_chunk) >>
        ret (frame_index - (frame_chunk - 1) * n)
    | None => raise TypeError
    end
  else
    match _file s with
    | None => _create_file frame_size dtype 0 >> ret frame_index
    | Some _ => ret frame_index
    end.

Definition fit_and_mark (frame_index : Z) : M Z :=
  let* s := get in
  let* size :=
    match _current_dataset_size s with
    | Some n => ret n
    | None => raise AttributeError
    end in
  when (negb (frame_index <? size))
    (let* n := expand_dataset (_dataset s) frame_index in
     modify (set_current_dataset_size (Some n))) >>
  let* s := get in
  when (_max_frame_index s <? frame_index)
    (modify (set_max_frame_index frame_index)) >>
  ret frame_index.

(** [_create_file] once a previous container has been closed. *)
Definition open_new (p : parameters) (frame_size : Z * Z) (dtype : string)
    (frame_chunk : Z) : M unit :=
  let* filename :=
    match output_file p with
    | Some template => ret (format_chunk_number template frame_chunk)
    | None => raise AttributeError
    end in
  let* f := File_w filename in
  modify (set_file f) >>
  let* d := create_dataset f (dataset_name p) frame_size dtype
              (compression p) (compression_opts p) in
  modify (set_dataset d) >>
  let* n := shape0 d in
  modify (set_current_dataset_size (Some n)) >>
  modify (set_current_frame_chunk (Some frame_chunk)).

(** The payload held at [slot] of the open dataset. *)
Definition chunk_at (s : state) (slot : Z) : option bytes :=
  match current s with
  | Some (_, _, ds) => ds_chunks ds !! slot
  | None => None
  end.

(** All the payloads of the open dataset, by slot. *)
Definition chunks_of (s : state) : gmap Z bytes :=
  match current s with
  | Some (_, _, ds) => ds_chunks ds
  | None => ∅
  end.

(** The frame numbers that closing the open container records in it: the
    values of its [image_nr_low] and [image_nr_high] attributes once
    [_close_file] has run. *)
Definition recorded_range (s : state) : option (Z * Z) :=
  match _file s with
  | Some f =>
      match fs (_close_file s).2 !! f with
      | Some file =>
          match h5_attrs file !! attr_key (dataset_name (params s)) "image_nr_low",
                h5_attrs file !! attr_key (dataset_name (params s)) "image_nr_high" with
          | Some low, Some high => Some (low, high)
          | _, _ => None
          end
      | None => None
      end
  | None => None
  end.

(** The extent of the dataset of file [f] on disk. *)
Definition capacity_of (disk : gmap string h5file) (f : string) : option Z :=
  match disk !! f with
  | Some file =>
      match h5_dataset file with
      | Some ds => Some (ds_shape0 ds)
      | None => None
      end
  | None => None
  end.

(** Backend calls that only grow a dataset or store a chunk in file [f]. *)
Definition grows_or_stores (f : string) (e : event) : Prop :=
  match e with
  | EvExpand g _ | EvWriteChunk g _ => g = f
  | _ => False
  end.

(** The creation properties of the open dataset: name, frame shape, element
    type, compression filter and its options. *)
Definition dataset_header (s : state)
    : option (option string * (Z * Z) * string * option Z * option (list Z)) :=
  match current s with
  | Some (_, _, ds) =>
      Some (ds_name ds, ds_frame_size ds, ds_dtype ds, ds_compression ds,
            ds_compression_opts ds)
  | None => None
  end.

(** The highest frame index of a list of messages, 0 for none. *)
Definition highest (ms : list message) : Z :=
  foldr (fun m acc => Z.max (get_frame_index m) acc) 0 ms.

(** The states a run can be in: the writer is constructed over a disk whose
    files are all closed, its parameters are set once, and then messages
    are processed and the writer is stopped in any order, whether or not a
    call raises. *)
Inductive reachable (p : parameters) : state -> Prop :=
  | reach_init disk :
      (forall g file, disk !! g = Some file -> h5_open file = false) ->
      reachable p (set_parameters p (__init__ disk))
  | reach_start s :
      reachable p s -> reachable p (start s).2
  | reach_process_message s m :
      reachable p s -> reachable p (process_message m s).2
  | reach_stop s :
      reachable p s -> reachable p (stop s).2.

(** Feeding a list of messages to the writer, one after the other. *)
Definition run (ms : list message) (s : state) : state :=
  fold_left (fun s m => (process_message m s).2) ms s.

(** ** Properties *)

Hypothesis initial_dataset_size_nonneg : 0 <= initial_dataset_size.
Hypothesis grown_size_fits : forall size i, size <= i -> i < grown_size size i.

Ltac run_m := unfold bind, ret, raise, get, modify, when; cbn.

Lemma the_open_file_ok s f file :
  fs s !! f = Some file -> h5_open file = true ->
  the_open_file (Some f) s = (Ok (f, file), s).
Proof.
  intros Hf Ho. unfold the_open_file. run_m. by rewrite Hf, Ho.
Qed.

Lemma the_dataset_ok s f file ds :
  fs s !! f = Some file -> h5_open file = true -> h5_dataset file = Some ds ->
  the_dataset (Some f) s = (Ok (f, file, ds), s).
Proof.
  intros Hf Ho Hd. unfold the_dataset, bind.
  rewrite (the_open_file_ok s f file Hf Ho). cbn. by rewrite Hd.
Qed.

Lemma image_nr_low_spec s :
  image_nr_low s =
  match _current_frame_chunk s, frames_per_file (params s) with
  | Some chunk, Some n => if truthy (Some n) then (chunk - 1) * n + 1 else 1
  | _, _ => 1
  end.
Proof.
  unfold image_nr_low, truthy.
  destruct (_current_frame_chunk s), (frames_per_file (params s)); try done.
  by destruct (_ =? 0).
Qed.

Lemma commit_lookup f file e s : fs (commit f file e s) !! f = Some file.
Proof. apply lookup_insert_eq. Qed.

Lemma compact_dataset_ok s f file ds m :
  fs s !! f = Some file -> h5_open file = true -> h5_dataset file = Some ds ->
  0 <= m ->
  compact_dataset (Some f) m s =
  (Ok tt, commit f (with_dataset (resize (m + 1) ds) file) (EvCompact f m) s).
Proof.
  intros Hf Ho Hd Hm. unfold compact_dataset, bind.
  rewrite (the_dataset_ok s f file ds Hf Ho Hd).
  by destruct (Z.ltb_spec m 0) as [|_]; [lia|].
Qed.

Lemma set_dataset_attributes_ok s f file lk l hk h :
  fs s !! f = Some file -> h5_open file = true ->
  set_dataset_attributes (Some f) lk l hk h s =
  (Ok tt, commit f
     {| h5_open := h5_open file; h5_dataset := h5_dataset file;
        h5_attrs := <[hk := h]> (<[lk := l]> (h5_attrs file));
        h5_group_attrs := h5_group_attrs file;
        h5_extra_datasets := h5_extra_datasets file;
        h5_dataset_attrs := h5_dataset_attrs file |} (EvSetAttributes f l h) s).
Proof.
  intros Hf Ho. unfold set_dataset_attributes, bind.
  by rewrite (the_open_file_ok s f file Hf Ho).
Qed.

Lemma populate_h5_file_ok s f file g d a :
  fs s !! f = Some file -> h5_open file = true ->
  populate_h5_file (Some f) g d a s =
  (Ok tt, commit f
     {| h5_open := h5_open file; h5_dataset := h5_dataset file;
        h5_attrs := h5_attrs file;
        h5_group_attrs := g ∪ h5_group_attrs file;
        h5_extra_datasets := d ∪ h5_extra_datasets file;
        h5_dataset_attrs := a ∪ h5_dataset_attrs file |} (EvPopulate f) s).
Proof.
  intros Hf Ho. unfold populate_h5_file, bind.
  by rewrite (the_open_file_ok s f file Hf Ho).
Qed.

Lemma File_close_ok s f file :
  fs s !! f = Some file -> h5_open file = true ->
  File_close (Some f) s =
  (Ok tt, commit f
     {| h5_open := false; h5_dataset := h5_dataset file;
        h5_attrs := h5_attrs file;
        h5_group_attrs := h5_group_attrs file;
        h5_extra_datasets := h5_extra_datasets file;
        h5_dataset_attrs := h5_dataset_attrs file |} (EvFileClose f) s).
Proof.
  intros Hf Ho. unfold File_close, bind.
  by rewrite (the_open_file_ok s f file Hf Ho).
Qed.

Lemma hwm_nonneg m chunks : hwm m chunks -> 0 <= m.
Proof.
  intros [H1 [->|H2]]; [done|]. by apply H1 in H2 as [].
Qed.

Lemma _set_data_chunk_attributes_ok s f file c :
  _file s = Some f -> fs s !! f = Some file -> h5_open file = true ->
  _current_frame_chunk s = Some c ->
  _set_data_chunk_attributes s =
  (Ok tt, commit f
     {| h5_open := h5_open file; h5_dataset := h5_dataset file;
        h5_attrs :=
          <[attr_key (dataset_name (params s)) "image_nr_high" :=
              _max_frame_index s + image_nr_low s]>
            (<[attr_key (dataset_name (params s)) "image_nr_low" :=
                 image_nr_low s]> (h5_attrs file));
        h5_group_attrs := h5_group_attrs file;
        h5_extra_datasets := h5_extra_datasets file;
        h5_dataset_attrs := h5_dataset_attrs file |}
     (EvSetAttributes f (image_nr_low s) (_max_frame_index s + image_nr_low s)) s).
Proof.
  intros Hfile Hf Ho Hc.
  unfold _set_data_chunk_attributes, bind at 1, get. cbn.
  rewrite image_nr_low_spec, Hc, Hfile.
  destruct (frames_per_file (params s)) as [n|] eqn:Hn; cbn.
  - destruct (n =? 0); cbn;
      rewrite (set_dataset_attributes_ok _ _ _ _ _ _ _ Hf Ho);
      rewrite ?Z.add_0_r; try reflexivity.
    by rewrite Z.add_assoc.
  - rewrite (set_dataset_attributes_ok _ _ _ _ _ _ _ Hf Ho).
    by rewrite ?Z.add_0_r.
Qed.

Lemma _close_file_spec s f file ds c :
  _file s = Some f -> open_core s f file ds c -> 0 <= _max_frame_index s ->
  _close_file s = (Ok tt, finalized s f file ds).
Proof.
  intros Hfile (Hf & Ho & Hd & Hds & Hsz & Hc & Hc0 & Hlt) Hm.
  unfold _close_file, bind at 1, get. cbn.
  rewrite Hds, Hfile. unfold bind at 1.
  rewrite (compact_dataset_ok s f file ds _ Hf Ho Hd Hm).
  unfold bind at 1.
  erewrite _set_data_chunk_attributes_ok;
    [| exact Hfile | apply commit_lookup | exact Ho | exact Hc].
  unfold bind at 1.
  erewrite populate_h5_file_ok; [| apply commit_lookup | exact Ho].
  unfold bind at 1.
  erewrite File_close_ok; [| apply commit_lookup | exact Ho].
  run_m. unfold finalized, finalized_file, close_events, commit, set_file; cbn.
  rewrite !insert_insert_eq, <- !app_assoc. reflexivity.
Qed.

Lemma _prepare_storage_for_frame_split i frame_size dtype s :
  _prepare_storage_for_frame i frame_size dtype s =
  (let* slot := route i frame_size dtype in fit_and_mark slot) s.
Proof. reflexivity. Qed.

Lemma _create_file_split frame_size dtype c s :
  _create_file frame_size dtype c s =
  (stop >> open_new (params s) frame_size dtype c) s.
Proof. reflexivity. Qed.

Lemma current_open s f file ds c :
  _file s = Some f -> open_core s f file ds c -> current s = Some (f, file, ds).
Proof.
  intros Hfile (Hf & Ho & Hd & _). unfold current. by rewrite Hfile, Hf, Hd, Ho.
Qed.

Lemma current_closed s : _file s = None -> current s = None.
Proof. intros H. unfold current. by rewrite H. Qed.

Lemma file_is_true_open s f file ds c :
  _file s = Some f -> open_core s f file ds c -> file_is_true s = true.
Proof.
  intros Hfile (Hf & Ho & _). unfold file_is_true. by rewrite Hfile, Hf.
Qed.

Lemma stop_spec s : inv s -> stop s = (Ok tt, closed s).
Proof.
  intros (Hcur & _). unfold stop, closed, bind, get, when.
  destruct (_file s) as [f|] eqn:Hfile.
  - destruct Hcur as (file & ds & c & Hcore & _ & Hm).
    rewrite (file_is_true_open s f file ds c Hfile Hcore).
    rewrite (current_open s f file ds c Hfile Hcore).
    apply (_close_file_spec s f file ds c Hfile Hcore), (hwm_nonneg _ _ Hm).
  - rewrite (current_closed s Hfile). unfold file_is_true. by rewrite Hfile.
Qed.

Lemma open_after_app l l' :
  open_after (l ++ l') = fold_left track l' (open_after l).
Proof. apply fold_left_app. Qed.

Lemma inv_all_closed s : inv s -> _file s = None -> all_closed (fs s).
Proof.
  intros (_ & Hothers & _) Hfile g file Hg.
  destruct (h5_open file) eqn:Ho; [|done].
  specialize (Hothers g file Hg Ho). congruence.
Qed.

Lemma closed_file s : inv s -> _file (closed s) = None.
Proof.
  intros (Hcur & _). unfold closed.
  destruct (_file s) as [f|] eqn:Hfile.
  - destruct Hcur as (file & ds & c & Hcore & _).
    by rewrite (current_open s f file ds c Hfile Hcore).
  - by rewrite (current_closed s Hfile).
Qed.

Lemma closed_params s : params (closed s) = params s.
Proof. unfold closed. by destruct (current s) as [[[f file] ds]|]. Qed.

Lemma inv_closed s : inv s -> inv (closed s).
Proof.
  intros Hinv. pose proof Hinv as (Hcur & Hothers & Hlog). unfold closed.
  destruct (_file s) as [f|] eqn:Hfile.
  - destruct Hcur as (file & ds & c & Hcore & _).
    rewrite (current_open s f file ds c Hfile Hcore).
    split; [done|]. split.
    + intros g file' Hg Ho. exfalso. cbn in Hg.
      destruct (decide (f = g)) as [->|Hne].
      * rewrite lookup_insert_eq in Hg. by inversion Hg; subst.
      * rewrite lookup_insert_ne in Hg by done.
        specialize (Hothers g file' Hg Ho). congruence.
    + unfold finalized, close_events; cbn [log _file].
      rewrite open_after_app, Hlog. cbn.
      by repeat (rewrite bool_decide_eq_true_2 by done; cbn).
  - by rewrite (current_closed s Hfile).
Qed.

Lemma open_new_spec p frame_size dtype c s template :
  _file s = None -> all_closed (fs s) -> p = params s ->
  output_file p = Some template ->
  open_new p frame_size dtype c s =
  (Ok tt, created s (format_chunk_number template c) frame_size dtype c).
Proof.
  intros Hfile Hclosed -> Hout.
  unfold open_new. rewrite Hout. unfold bind at 1, ret at 1.
  set (fn := format_chunk_number template c).
  assert (File_w fn s = (Ok (Some fn), commit fn new_file (EvFileOpen fn) s)) as HF.
  { unfold File_w, bind at 1, get.
    destruct (fs s !! fn) as [file|] eqn:Hfn; [|done].
    by rewrite (Hclosed fn file Hfn). }
  unfold bind at 1. rewrite HF. unfold bind at 1, modify at 1.
  unfold bind at 1, create_dataset, bind at 1.
  erewrite the_open_file_ok; [| apply commit_lookup | done].
  run_m. unfold shape0, the_dataset, bind.
  erewrite the_open_file_ok; [| apply commit_lookup | done].
  cbn. unfold created, commit; cbn.
  by rewrite insert_insert_eq, <- app_assoc.
Qed.

Lemma open_new_fails p frame_size dtype c s :
  output_file p = None ->
  open_new p frame_size dtype c s = (Raise AttributeError, s).
Proof. intros Hout. unfold open_new. by rewrite Hout. Qed.

Lemma inv_created s fn frame_size dtype c :
  inv s -> _file s = None ->
  (truthy (frames_per_file (params s)) = false -> c = 0) ->
  inv (created s fn frame_size dtype c).
Proof.
  intros Hinv Hfile Hc. pose proof (inv_all_closed s Hinv Hfile) as Hclosed.
  destruct Hinv as (Hcur & Hothers & Hlog). rewrite Hfile in Hcur.
  split; [|split].
  - cbn. eexists _, _, c. split; [|split].
    + unfold open_core; cbn. rewrite lookup_insert_eq.
      repeat split; try done.
      all: destruct H as [? Hk]; cbn in Hk; by rewrite lookup_empty in Hk.
    + done.
    + cbn. destruct Hcur as [_ ->]. split; [|by left].
      intros k [? Hk]. by rewrite lookup_empty in Hk.
  - intros g file Hg Ho. cbn in *.
    destruct (decide (fn = g)) as [->|Hne]; [done|].
    rewrite lookup_insert_ne in Hg by done.
    by rewrite (Hclosed g file Hg) in Ho.
  - unfold created; cbn [log _file].
    rewrite open_after_app, Hlog, Hfile. cbn.
    by repeat (rewrite bool_decide_eq_true_2 by done; cbn).
Qed.

Lemma _create_file_spec frame_size dtype c s template :
  inv s -> output_file (params s) = Some template ->
  _create_file frame_size dtype c s =
  (Ok tt, created (closed s) (format_chunk_number template c) frame_size dtype c).
Proof.
  intros Hinv Hout. rewrite _create_file_split. unfold bind.
  rewrite (stop_spec s Hinv).
  apply open_new_spec.
  - by apply closed_file.
  - apply inv_all_closed; [by apply inv_closed | by apply closed_file].
  - by rewrite closed_params.
  - done.
Qed.

Lemma _create_file_fails frame_size dtype c s :
  inv s -> output_file (params s) = None ->
  _create_file frame_size dtype c s = (Raise AttributeError, closed s).
Proof.
  intros Hinv Hout. rewrite _create_file_split. unfold bind.
  rewrite (stop_spec s Hinv). by apply open_new_fails.
Qed.

Lemma truthy_chunk_of p n i :
  frames_per_file p = Some n -> truthy (Some n) = true ->
  chunk_of p i = i / n + 1 /\ slot_of p i = i - (i / n + 1 - 1) * n.
Proof.
  intros Hn Ht. unfold chunk_of, slot_of. rewrite Hn. cbn in Ht.
  by destruct (n =? 0).
Qed.

Lemma falsy_chunk_of p i :
  truthy (frames_per_file p) = false -> chunk_of p i = 0 /\ slot_of p i = i.
Proof.
  unfold chunk_of, slot_of, truthy.
  destruct (frames_per_file p) as [n|]; [|done]. by destruct (n =? 0).
Qed.

(** Under the invariant, a writer with chunking disabled holds a file
    exactly when its chunk number is 0. *)
Lemma inv_disabled_chunk s :
  inv s -> truthy (frames_per_file (params s)) = false ->
  match _file s with
  | Some _ => _current_frame_chunk s = Some 0
  | None => _current_frame_chunk s = None
  end.
Proof.
  intros (Hcur & _) Hdis. destruct (_file s) as [f|].
  - destruct Hcur as (file & ds & c & (_ & _ & _ & _ & _ & Hc & Hc0 & _) & _).
    by rewrite Hc, (Hc0 Hdis).
  - by destruct Hcur.
Qed.

Lemma route_spec i frame_size dtype s template :
  inv s ->
  output_file (params s) = Some template \/
    _current_frame_chunk s = Some (chunk_of (params s) i) ->
  route i frame_size dtype s =
  (Ok (slot_of (params s) i),
   target s template frame_size dtype (chunk_of (params s) i)).
Proof.
  intros Hinv Hout. unfold route, bind at 1, get, target.
  destruct (truthy (frames_per_file (params s))) eqn:Ht.
  - destruct (frames_per_file (params s)) as [n|] eqn:Hn; [|done].
    destruct (truthy_chunk_of (params s) n i Hn Ht) as [-> ->].
    unfold bind, when. case_bool_decide as Hc; cbn [negb]; [done|].
    destruct Hout as [Hout|Hout].
    + by rewrite (_create_file_spec _ _ _ _ _ Hinv Hout).
    + destruct (truthy_chunk_of (params s) n i Hn Ht) as [E _].
      by rewrite E in Hout.
  - destruct (falsy_chunk_of (params s) i Ht) as [-> ->].
    pose proof (inv_disabled_chunk s Hinv Ht) as Hc.
    destruct (_file s) as [f|] eqn:Hfile.
    + by rewrite bool_decide_eq_true_2.
    + rewrite bool_decide_eq_false_2 by congruence.
      destruct Hout as [Hout|Hout]; [|congruence].
      unfold bind. by rewrite (_create_file_spec _ _ _ _ _ Hinv Hout).
Qed.

Lemma route_fails i frame_size dtype s :
  inv s -> output_file (params s) = None ->
  _current_frame_chunk s <> Some (chunk_of (params s) i) ->
  route i frame_size dtype s = (Raise AttributeError, closed s).
Proof.
  intros Hinv Hout Hne. unfold route, bind at 1, get.
  destruct (truthy (frames_per_file (params s))) eqn:Ht.
  - destruct (frames_per_file (params s)) as [n|] eqn:Hn; [|done].
    destruct (truthy_chunk_of (params s) n i Hn Ht) as [E _]. rewrite E in Hne.
    unfold bind, when. rewrite bool_decide_eq_false_2 by done. cbn [negb].
    by rewrite (_create_file_fails _ _ _ _ Hinv Hout).
  - destruct (falsy_chunk_of (params s) i Ht) as [E _]. rewrite E in Hne.
    pose proof (inv_disabled_chunk s Hinv Ht) as Hc.
    destruct (_file s) as [f|] eqn:Hfile; [done|].
    unfold bind. by rewrite (_create_file_fails _ _ _ _ Hinv Hout).
Qed.

Lemma target_params s template frame_size dtype c :
  params (target s template frame_size dtype c) = params s.
Proof.
  unfold target. case_bool_decide; [done|]. cbn. apply closed_params.
Qed.

Lemma inv_target s template frame_size dtype c :
  inv s ->
  (truthy (frames_per_file (params s)) = false -> c = 0) ->
  inv (target s template frame_size dtype c) /\
  _current_frame_chunk (target s template frame_size dtype c) = Some c.
Proof.
  intros Hinv Hc. unfold target. case_bool_decide as E; [done|].
  split; [|done]. apply inv_created.
  - by apply inv_closed.
  - by apply closed_file.
  - by rewrite closed_params.
Qed.

(** A writer that satisfies the invariant and has a chunk number holds an
    open container. *)
Lemma inv_open s c :
  inv s -> _current_frame_chunk s = Some c ->
  exists f file ds, _file s = Some f /\ open_inv s f file ds c.
Proof.
  intros (Hcur & _) Hc. destruct (_file s) as [f|].
  - destruct Hcur as (file & ds & c' & Hopen). exists f, file, ds. split; [done|].
    destruct Hopen as ((? & ? & ? & ? & ? & Hc' & ?) & ?).
    assert (c' = c) as <- by congruence. done.
  - destruct Hcur. congruence.
Qed.

Lemma inv_current s f file ds :
  inv s -> current s = Some (f, file, ds) ->
  exists c, _file s = Some f /\ open_inv s f file ds c.
Proof.
  intros (Hcur & _) Hc. unfold current in Hc.
  destruct (_file s) as [f'|]; [|done].
  destruct Hcur as (file' & ds' & c & Hopen). exists c.
  pose proof Hopen as ((Hf & Ho & Hd & _) & _).
  rewrite Hf, Hd, Ho in Hc. by inversion Hc; subst.
Qed.

Lemma resize_chunks n ds :
  (forall k, is_Some (ds_chunks ds !! k) -> k < n) ->
  ds_chunks (resize n ds) = ds_chunks ds.
Proof.
  intros Hlt. cbn. apply map_filter_id. intros k x Hk. cbn. by apply Hlt.
Qed.

Lemma fit_and_mark_spec slot s f file ds c :
  _file s = Some f -> open_core s f file ds c ->
  fit_and_mark slot s = (Ok slot, marked slot (fitted slot s)).
Proof.
  intros Hfile Hcore. unfold fitted.
  rewrite (current_open s f file ds c Hfile Hcore).
  destruct Hcore as (Hf & Ho & Hd & Hds & Hsz & _).
  unfold fit_and_mark, bind at 1, get. rewrite Hsz. unfold bind at 1, ret at 1.
  unfold bind at 1, when. destruct (slot <? ds_shape0 ds); cbn [negb].
  - unfold marked, bind, ret, modify, get. by destruct (_ <? _).
  - unfold bind at 1, expand_dataset, bind at 1. rewrite Hds.
    rewrite (the_dataset_ok s f file ds Hf Ho Hd).
    unfold marked, bind, ret, modify, get. cbn. by destruct (_ <? _).
Qed.

Lemma inv_fitted slot s :
  inv s ->
  inv (fitted slot s) /\
  (forall f file ds, current (fitted slot s) = Some (f, file, ds) ->
     slot < ds_shape0 ds) /\
  _max_frame_index (fitted slot s) = _max_frame_index s /\
  _current_frame_chunk (fitted slot s) = _current_frame_chunk s.
Proof.
  intros Hinv. unfold fitted.
  destruct (current s) as [[[f file] ds]|] eqn:Hcur.
  2: { split; [done|]. split; [|done]. intros ???. by rewrite Hcur. }
  destruct (inv_current s f file ds Hinv Hcur) as (c & Hfile & Hopen).
  destruct (Z.ltb_spec slot (ds_shape0 ds)) as [Hlt|Hge].
  { split; [done|]. split; [|done].
    intros ??? E. rewrite Hcur in E. by inversion E; subst. }
  pose proof Hopen as ((Hf & Ho & Hd & Hds & Hsz & Hc & Hc0 & Hk) & Hs0 & Hm).
  pose proof (grown_size_fits _ _ Hge) as Hfit.
  assert (ds_chunks (resize (grown_size (ds_shape0 ds) slot) ds) = ds_chunks ds) as Hch.
  { apply resize_chunks. intros k Hsome. apply Hk in Hsome. lia. }
  destruct Hinv as (_ & Hothers & Hlog).
  split; [split; [|split] | split; [|done]].
  - cbn. rewrite Hfile. eexists _, _, c. split; [|split].
    + unfold open_core. cbn [fs _dataset _current_dataset_size
        _current_frame_chunk params commit set_current_dataset_size].
      rewrite lookup_insert_eq. repeat split; try done.
      all: rewrite Hch in H; apply Hk in H; cbn; lia.
    + cbn. lia.
    + cbn [_max_frame_index commit set_current_dataset_size]. by rewrite Hch.
  - intros g file' Hg Ho'. cbn in *. rewrite Hfile.
    destruct (decide (f = g)) as [->|Hne]; [done|].
    rewrite lookup_insert_ne in Hg by done.
    rewrite <- Hfile. by apply (Hothers g file').
  - cbn [log _file commit set_current_dataset_size].
    rewrite open_after_app, Hlog, Hfile. cbn. by rewrite bool_decide_eq_true_2.
  - intros f' file' ds' E. unfold current in E. cbn in E.
    rewrite Hfile, lookup_insert_eq in E. cbn in E. rewrite Ho in E.
    inversion E; subst. cbn. done.
Qed.

Lemma write_direct_chunk_spec slot data s f file ds c :
  _file s = Some f -> open_core s f file ds c ->
  write_direct_chunk (_dataset s) slot data s =
  if slot <? 0 then (Raise OverflowError, s)
  else if ds_shape0 ds <=? slot then (Raise OSError, s)
  else (Ok tt, stored slot data s).
Proof.
  intros Hfile Hcore. unfold stored.
  rewrite (current_open s f file ds c Hfile Hcore).
  destruct Hcore as (Hf & Ho & Hd & Hds & _).
  unfold write_direct_chunk, bind. rewrite Hds.
  rewrite (the_dataset_ok s f file ds Hf Ho Hd). cbn.
  destruct (slot <? 0); [done|]. by destruct (ds_shape0 ds <=? slot).
Qed.

Lemma marked_max slot s :
  _max_frame_index (marked slot s) = Z.max (_max_frame_index s) slot.
Proof.
  unfold marked. destruct (Z.ltb_spec (_max_frame_index s) slot); cbn; lia.
Qed.

Lemma marked_current slot s : current (marked slot s) = current s.
Proof. unfold marked. by destruct (_ <? _). Qed.

Lemma marked_negative slot s :
  0 <= _max_frame_index s -> slot < 0 -> marked slot s = s.
Proof.
  intros. unfold marked. destruct (Z.ltb_spec (_max_frame_index s) slot); [lia|done].
Qed.

Lemma inv_stored slot data s f file ds :
  inv s -> current s = Some (f, file, ds) -> 0 <= slot < ds_shape0 ds ->
  inv (stored slot data (marked slot s)).
Proof.
  intros Hinv Hcur Hslot. unfold stored. rewrite marked_current, Hcur.
  destruct (inv_current s f file ds Hinv Hcur) as (c & Hfile & Hopen).
  destruct Hopen as ((Hf & Ho & Hd & Hds & Hsz & Hc & Hc0 & Hk) & Hs0 & Hm1 & Hm2).
  destruct Hinv as (_ & Hothers & Hlog).
  assert (_file (marked slot s) = Some f) as Hfile'.
  { unfold marked. by destruct (_ <? _). }
  split; [|split].
  - cbn [_file commit]. rewrite Hfile'. eexists _, _, c. split; [|split].
    + unfold open_core. cbn [fs commit]. rewrite lookup_insert_eq.
      unfold marked. destruct (_ <? _); cbn; repeat split; try done.
      all: cbn in H; apply lookup_insert_is_Some in H as [->|[_ H]];
           [cbn; lia|]; apply Hk in H; cbn; lia.
    + done.
    + cbn [_max_frame_index commit ds_chunks with_dataset h5_dataset].
      rewrite marked_max. split.
      * intros k Hsome. apply lookup_insert_is_Some in Hsome as [->|[_ Hsome]]; [lia|].
        apply Hm1 in Hsome. lia.
      * destruct (Z.max_spec (_max_frame_index s) slot) as [[_ ->]|[_ ->]].
        -- right. rewrite lookup_insert_eq. by eexists.
        -- destruct Hm2 as [Hm2|Hm2]; [by left|right].
           apply lookup_insert_is_Some.
           destruct (decide (slot = _max_frame_index s)); [by left|by right].
  - intros g file' Hg Ho'. cbn [fs _file commit] in *. rewrite Hfile'.
    destruct (decide (f = g)) as [->|Hne]; [done|].
    rewrite lookup_insert_ne in Hg by done.
    rewrite <- Hfile. apply (Hothers g file'); [|done].
    revert Hg. unfold marked. by destruct (_ <? _).
  - cbn [log _file commit]. rewrite Hfile'.
    assert (log (marked slot s) = log s) as ->.
    { unfold marked. by destruct (_ <? _). }
    rewrite open_after_app, Hlog, Hfile. cbn. by rewrite bool_decide_eq_true_2.
Qed.

Lemma open_core_marked slot s f file ds c :
  open_core s f file ds c -> open_core (marked slot s) f file ds c.
Proof. unfold marked. by destruct (_ <? _). Qed.

Lemma marked_file slot s : _file (marked slot s) = _file s.
Proof. unfold marked. by destruct (_ <? _). Qed.

Lemma marked_params slot s : params (marked slot s) = params s.
Proof. unfold marked. by destruct (_ <? _). Qed.

Lemma fitted_params slot s : params (fitted slot s) = params s.
Proof.
  unfold fitted. destruct (current s) as [[[f file] ds]|]; [|done].
  by destruct (_ <? _).
Qed.

Lemma stored_params slot data s : params (stored slot data s) = params s.
Proof. unfold stored. by destruct (current s) as [[[f file] ds]|]. Qed.

Lemma prepared_params s template m : params (prepared s template m) = params s.
Proof.
  unfold prepared. by rewrite marked_params, fitted_params, target_params.
Qed.

Lemma run_plugins_state ps m s : (run_plugins ps m s).2 = s.
Proof.
  induction ps as [|pf ps IH]; [done|]. cbn. unfold bind, get.
  destruct (pf s m); [done|]. apply IH.
Qed.

Lemma run_plugins_nil m s : run_plugins [] m s = (Ok tt, s).
Proof. reflexivity. Qed.

(** On a negative slot nothing is grown and the mark does not move. *)
Lemma negative_slot_untouched slot s :
  inv s -> slot < 0 -> marked slot (fitted slot s) = s.
Proof.
  intros Hinv Hneg.
  assert (fitted slot s = s) as ->.
  { unfold fitted. destruct (current s) as [[[f file] ds]|] eqn:Hcur; [|done].
    destruct (inv_current s f file ds Hinv Hcur) as (c & _ & _ & Hs0 & _).
    destruct (Z.ltb_spec slot (ds_shape0 ds)); [done|lia]. }
  apply marked_negative; [|done].
  destruct Hinv as (Hcur & _). destruct (_file s).
  - destruct Hcur as (file & ds & c & _ & _ & Hm). by apply hwm_nonneg in Hm.
  - destruct Hcur as [_ ->]. done.
Qed.

Lemma chunk_of_disabled s i :
  truthy (frames_per_file (params s)) = false -> chunk_of (params s) i = 0.
Proof. intros H. by destruct (falsy_chunk_of (params s) i H). Qed.

(** What [_prepare_storage_for_frame] returns and the state it leaves. *)
Lemma _prepare_storage_for_frame_spec m s template :
  inv s ->
  output_file (params s) = Some template \/
    _current_frame_chunk s = Some (chunk_of (params s) (get_frame_index m)) ->
  _prepare_storage_for_frame (get_frame_index m) (get_frame_size m)
    (get_frame_dtype m) s =
  (Ok (slot_of (params s) (get_frame_index m)), prepared s template m).
Proof.
  intros Hinv Hout. rewrite _prepare_storage_for_frame_split. unfold bind.
  rewrite (route_spec _ _ _ _ template Hinv Hout).
  destruct (inv_target s template (get_frame_size m) (get_frame_dtype m)
              (chunk_of (params s) (get_frame_index m)) Hinv
              (chunk_of_disabled s _)) as [Hinvt Hct].
  destruct (inv_open _ _ Hinvt Hct) as (f & file & ds & Hfile & Hcore & _).
  by rewrite (fit_and_mark_spec _ _ f file ds _ Hfile Hcore).
Qed.

(** The whole of [process_message], when a container can be opened. *)
Lemma process_message_spec m s template :
  inv s ->
  output_file (params s) = Some template \/
    _current_frame_chunk s = Some (chunk_of (params s) (get_frame_index m)) ->
  process_message m s =
  if slot_of (params s) (get_frame_index m) <? 0
  then (Raise OverflowError, prepared s template m)
  else run_plugins _plugins m
         (stored (slot_of (params s) (get_frame_index m)) (get_data m)
            (prepared s template m)).
Proof.
  intros Hinv Hout. unfold process_message, bind at 1.
  rewrite (_prepare_storage_for_frame_spec m s template Hinv Hout).
  unfold bind at 1, get. unfold prepared.
  set (slot := slot_of (params s) (get_frame_index m)).
  set (t := target s template _ _ _).
  destruct (inv_target s template (get_frame_size m) (get_frame_dtype m)
              (chunk_of (params s) (get_frame_index m)) Hinv
              (chunk_of_disabled s _)) as [Hinvt Hct].
  fold t in Hinvt, Hct.
  destruct (inv_fitted slot t Hinvt) as (Hinvf & Hfit & _ & Hcf).
  rewrite Hct in Hcf.
  destruct (inv_open _ _ Hinvf Hcf) as (f & file & ds & Hfile & Hcore & _).
  unfold bind.
  erewrite write_direct_chunk_spec;
    [| by rewrite marked_file | by apply open_core_marked].
  destruct (Z.ltb_spec slot 0) as [Hneg|Hpos]; [done|].
  specialize (Hfit f file ds (current_open _ _ _ _ _ Hfile Hcore)).
  destruct (Z.leb_spec (ds_shape0 ds) slot) as [|_]; [lia|].
  by destruct (run_plugins _ _ _) as [[[]|e] s'].
Qed.

Lemma process_message_fails m s :
  inv s -> output_file (params s) = None ->
  _current_frame_chunk s <> Some (chunk_of (params s) (get_frame_index m)) ->
  process_message m s = (Raise AttributeError, closed s).
Proof.
  intros Hinv Hout Hne. unfold process_message, bind at 1.
  rewrite _prepare_storage_for_frame_split. unfold bind at 1.
  by rewrite (route_fails _ _ _ _ Hinv Hout Hne).
Qed.

Lemma inv_prepared_stored m s template :
  inv s -> 0 <= slot_of (params s) (get_frame_index m) ->
  inv (stored (slot_of (params s) (get_frame_index m)) (get_data m)
         (prepared s template m)).
Proof.
  intros Hinv Hpos. unfold prepared.
  set (slot := slot_of (params s) (get_frame_index m)) in *.
  set (t := target s template _ _ _).
  destruct (inv_target s template (get_frame_size m) (get_frame_dtype m)
              (chunk_of (params s) (get_frame_index m)) Hinv
              (chunk_of_disabled s _)) as [Hinvt Hct].
  fold t in Hinvt, Hct.
  destruct (inv_fitted slot t Hinvt) as (Hinvf & Hfit & _ & Hcf).
  rewrite Hct in Hcf.
  destruct (inv_open _ _ Hinvf Hcf) as (f & file & ds & Hfile & Hcore & _).
  pose proof (current_open _ _ _ _ _ Hfile Hcore) as Hcur.
  apply (inv_stored _ _ _ f file ds Hinvf Hcur).
  specialize (Hfit f file ds Hcur). lia.
Qed.

Lemma inv_prepared_negative m s template :
  inv s -> slot_of (params s) (get_frame_index m) < 0 ->
  prepared s template m =
    target s template (get_frame_size m) (get_frame_dtype m)
      (chunk_of (params s) (get_frame_index m)) /\
  inv (prepared s template m).
Proof.
  intros Hinv Hneg.
  destruct (inv_target s template (get_frame_size m) (get_frame_dtype m)
              (chunk_of (params s) (get_frame_index m)) Hinv
              (chunk_of_disabled s _)) as [Hinvt Hct].
  unfold prepared. by rewrite (negative_slot_untouched _ _ Hinvt Hneg).
Qed.

Lemma inv_process_message m s :
  inv s ->
  inv (process_message m s).2 /\ params (process_message m s).2 = params s.
Proof.
  intros Hinv.
  assert (forall template,
    output_file (params s) = Some template \/
      _current_frame_chunk s = Some (chunk_of (params s) (get_frame_index m)) ->
    inv (process_message m s).2 /\ params (process_message m s).2 = params s) as Hok.
  { intros template Hout.
    rewrite (process_message_spec m s template Hinv Hout).
    destruct (Z.ltb_spec (slot_of (params s) (get_frame_index m)) 0) as [Hneg|Hpos].
    - cbn. split; [by apply inv_prepared_negative | apply prepared_params].
    - rewrite run_plugins_state. split; [by apply inv_prepared_stored|].
      by rewrite stored_params, prepared_params. }
  destruct (output_file (params s)) as [template|] eqn:Hout.
  - apply (Hok template). by left.
  - destruct (decide (_current_frame_chunk s =
                      Some (chunk_of (params s) (get_frame_index m)))) as [E|Hne].
    + apply (Hok EmptyString). by right.
    + rewrite (process_message_fails m s Hinv Hout Hne). cbn.
      split; [by apply inv_closed | apply closed_params].
Qed.

Lemma start_state s : (start s).2 = s.
Proof.
  unfold start, _validate_parameters, bind, get.
  by destruct (negb _).
Qed.

Lemma reachable_inv p s : reachable p s -> inv s /\ params s = p.
Proof.
  induction 1 as [disk Hdisk|s _ [IH1 IH2]|s m _ [IH1 IH2]|s _ [IH1 IH2]].
  - split; [|done]. split; [done|]. split; [|done].
    intros g file Hg Ho. cbn in Hg. by rewrite (Hdisk g file Hg) in Ho.
  - by rewrite start_state.
  - destruct (inv_process_message m s IH1) as [? ->]. done.
  - rewrite (stop_spec s IH1). cbn. split; [by apply inv_closed|].
    by rewrite closed_params.
Qed.

Lemma reachable_run p ms s : reachable p s -> reachable p (run ms s).
Proof.
  revert s. induction ms as [|m ms IH]; intros s Hs; [done|].
  cbn. apply IH. by constructor.
Qed.

Lemma append_inj_l (a b c : string) : (a +:+ b = a +:+ c)%string -> b = c.
Proof. induction a as [|x a IH]; cbn; [done|]. intros H. apply IH. by inversion H. Qed.

Lemma attr_key_low_high name :
  attr_key name "image_nr_low" <> attr_key name "image_nr_high".
Proof.
  unfold attr_key. intros H. apply append_inj_l in H. discriminate H.
Qed.

Lemma recorded_range_spec s :
  inv s -> is_Some (_file s) ->
  recorded_range s = Some (image_nr_low s, image_nr_low s + _max_frame_index s).
Proof.
  intros Hinv [f Hfile]. pose proof Hinv as (Hcur & _). rewrite Hfile in Hcur.
  destruct Hcur as (file & ds & c & Hcore & _ & Hm).
  unfold recorded_range. rewrite Hfile.
  rewrite (_close_file_spec s f file ds c Hfile Hcore (hwm_nonneg _ _ Hm)).
  cbn. rewrite lookup_insert_eq. cbn.
  rewrite lookup_insert_eq, lookup_insert_ne, lookup_insert_eq
    by (apply not_eq_sym, attr_key_low_high).
  by rewrite Z.add_comm.
Qed.

Lemma hwm_unique m1 m2 (ch1 ch2 : gmap Z bytes) :
  hwm m1 ch1 -> hwm m2 ch2 ->
  (forall k, is_Some (ch1 !! k) <-> is_Some (ch2 !! k)) -> m1 = m2.
Proof.
  intros [Ha1 Ha2] [Hb1 Hb2] Hdom.
  destruct Ha2 as [->|Ha2], Hb2 as [->|Hb2]; [done| | |].
  - apply Hdom, Ha1 in Hb2. lia.
  - apply Hdom, Hb1 in Ha2. lia.
  - pose proof (Hb1 _ (proj1 (Hdom _) Ha2)). pose proof (Ha1 _ (proj2 (Hdom _) Hb2)). lia.
Qed.

Lemma fitted_log slot s f file ds :
  current s = Some (f, file, ds) ->
  exists rest, log (fitted slot s) = log s ++ rest /\ Forall (grows_or_stores f) rest.
Proof.
  intros Hcur. unfold fitted. rewrite Hcur. destruct (_ <? _).
  - exists []. by rewrite app_nil_r.
  - exists [EvExpand f slot]. split; [done|]. by repeat constructor.
Qed.

Lemma marked_log slot s : log (marked slot s) = log s.
Proof. unfold marked. by destruct (_ <? _). Qed.

Lemma stored_log slot data s f file ds :
  current s = Some (f, file, ds) ->
  log (stored slot data s) = log s ++ [EvWriteChunk f slot].
Proof. intros Hcur. unfold stored. by rewrite Hcur. Qed.

Lemma stored_chunk_at slot data s f file ds :
  current s = Some (f, file, ds) ->
  chunk_at (stored slot data s) slot = Some data.
Proof.
  intros Hcur. unfold chunk_at, stored. rewrite Hcur.
  unfold current in *. cbn.
  destruct (_file s) as [g|]; [|done].
  destruct (fs s !! g) as [file'|] eqn:Hg; [|done].
  destruct (h5_dataset file'); [|done].
  destruct (h5_open file') eqn:Ho; [|done]. inversion Hcur; subst.
  rewrite lookup_insert_eq. cbn. rewrite Ho. apply lookup_insert_eq.
Qed.

Lemma prepared_chunk s template m :
  inv s ->
  _current_frame_chunk (prepared s template m) =
  Some (chunk_of (params s) (get_frame_index m)).
Proof.
  intros Hinv. unfold prepared.
  destruct (inv_target s template (get_frame_size m) (get_frame_dtype m)
              (chunk_of (params s) (get_frame_index m)) Hinv
              (chunk_of_disabled s _)) as [Hinvt Hct].
  destruct (inv_fitted (slot_of (params s) (get_frame_index m)) _ Hinvt)
    as (_ & _ & _ & Hcf).
  unfold marked. destruct (_ <? _); cbn; congruence.
Qed.

Lemma slot_of_mod p C i :
  frames_per_file p = Some C -> 0 < C ->
  chunk_of p i = 1 + i / C /\ slot_of p i = i mod C /\ truthy (frames_per_file p) = true.
Proof.
  intros Hn HC. unfold chunk_of, slot_of, truthy. rewrite Hn.
  destruct (Z.eqb_spec C 0); [lia|]. rewrite (Z.mod_eq i C) by lia.
  repeat split; lia.
Qed.

(** ** The claims *)

(** C1. For every non-negative frame index and chunking capacity [C > 0],
    [_prepare_storage_for_frame] returns the slot [frame_index mod C], which
    lies in [0, C), and leaves the container of chunk
    [1 + frame_index / C] open; when chunking is disabled
    ([frames_per_file] unset or 0) the slot is the frame index unchanged and
    the chunk number is 0. *)
Theorem routing_chunk_and_slot p s template frame_index frame_size dtype :
  reachable p s -> output_file p = Some template -> 0 <= frame_index ->
  (forall C, frames_per_file p = Some C -> 0 < C ->
     exists s',
       _prepare_storage_for_frame frame_index frame_size dtype s =
         (Ok (frame_index mod C), s') /\
       _current_frame_chunk s' = Some (1 + frame_index / C) /\
       0 <= frame_index mod C < C) /\
  (truthy (frames_per_file p) = false ->
     exists s',
       _prepare_storage_for_frame frame_index frame_size dtype s =
         (Ok frame_index, s') /\
       _current_frame_chunk s' = Some 0).
Proof.
  intros Hreach Hout Hpos.
  destruct (reachable_inv p s Hreach) as [Hinv <-].
  set (m := {| get_frame_index := frame_index; get_frame_size := frame_size;
               get_frame_dtype := dtype; get_data := [] |}).
  pose proof (_prepare_storage_for_frame_spec m s template Hinv (or_introl Hout)) as Hspec.
  pose proof (prepared_chunk s template m Hinv) as Hchunk.
  cbn [get_frame_index get_frame_size get_frame_dtype m] in Hspec, Hchunk.
  split.
  - intros C HC Hlt.
    destruct (slot_of_mod (params s) C frame_index HC Hlt) as (Ec & Es & _).
    rewrite Ec in Hchunk. rewrite Es in Hspec.
    eexists. split; [exact Hspec|]. split; [exact Hchunk|].
    apply Z.mod_pos_bound, Hlt.
  - intros Hdis.
    destruct (falsy_chunk_of (params s) frame_index Hdis) as [Ec Es].
    rewrite Ec in Hchunk. rewrite Es in Hspec.
    eexists. split; [exact Hspec | exact Hchunk].
Qed.

(** C2. Closing a container records, under the keys
    [<dataset_name>:image_nr_low] and [<dataset_name>:image_nr_high], the
    1-based frame numbers [low = (chunk - 1) * frames_per_file + 1] (1 when
    chunking is disabled) and [high = low + _max_frame_index]. *)
Theorem close_records_frame_numbers p s c :
  reachable p s -> _current_frame_chunk s = Some c ->
  (forall C, frames_per_file p = Some C -> C <> 0 ->
     recorded_range s =
       Some ((c - 1) * C + 1, (c - 1) * C + 1 + _max_frame_index s)) /\
  (truthy (frames_per_file p) = false ->
     recorded_range s = Some (1, 1 + _max_frame_index s)).
Proof.
  intros Hreach Hc.
  destruct (reachable_inv p s Hreach) as [Hinv <-].
  destruct (inv_open s c Hinv Hc) as (f & file & ds & Hfile & _).
  rewrite (recorded_range_spec s Hinv) by (by rewrite Hfile).
  unfold image_nr_low, truthy. rewrite Hc. split.
  - intros C HC Hne. rewrite HC. by destruct (Z.eqb_spec C 0).
  - intros Hdis. destruct (frames_per_file (params s)) as [C|]; [|done].
    by destruct (C =? 0).
Qed.

(** C7. [stop] is idempotent: it does not raise, a second [stop] right
    after it changes nothing and does not raise, the first one performs
    the one finalization of the open container, and [stop] on a writer
    that holds no container does nothing. *)
Theorem stop_idempotent p s :
  reachable p s ->
  (stop s).1 = Ok tt /\
  stop (stop s).2 = (Ok tt, (stop s).2) /\
  log (stop s).2 =
    log s ++ match _file s with Some f => close_events s f | None => [] end /\
  (_file s = None -> stop s = (Ok tt, s)).
Proof.
  intros Hreach. destruct (reachable_inv p s Hreach) as [Hinv _].
  rewrite (stop_spec s Hinv). cbn [fst snd].
  rewrite (stop_spec (closed s) (inv_closed s Hinv)).
  assert (closed (closed s) = closed s) as Hcc.
  { unfold closed at 1. by rewrite (current_closed _ (closed_file s Hinv)). }
  rewrite Hcc. repeat split.
  - unfold closed. destruct (_file s) as [f|] eqn:Hfile.
    + destruct Hinv as (Hcur & _). rewrite Hfile in Hcur.
      destruct Hcur as (file & ds & c & Hcore & _).
      by rewrite (current_open s f file ds c Hfile Hcore).
    + by rewrite (current_closed s Hfile), app_nil_r.
  - intros Hfile. unfold closed. by rewrite (current_closed s Hfile).
Qed.

(** C9. A container closed with no frame written records the same
    [image_nr_low] and [image_nr_high] as a container of the same chunk in
    which only slot 0 was written: both attributes are the 1-based number
    of the first frame of the chunk. *)
Theorem empty_container_looks_like_one_frame p s1 s2 c :
  reachable p s1 -> reachable p s2 ->
  _current_frame_chunk s1 = Some c -> _current_frame_chunk s2 = Some c ->
  (forall k, chunk_at s1 k = None) ->
  (forall k, is_Some (chunk_at s2 k) <-> k = 0) ->
  recorded_range s1 = recorded_range s2 /\
  recorded_range s1 = Some (image_nr_low s1, image_nr_low s1).
Proof.
  intros Hr1 Hr2 Hc1 Hc2 Hempty Hone.
  destruct (reachable_inv p s1 Hr1) as [Hinv1 Hp1].
  destruct (reachable_inv p s2 Hr2) as [Hinv2 Hp2].
  destruct (inv_open s1 c Hinv1 Hc1) as (f1 & file1 & ds1 & Hf1 & Hcore1 & _ & Hm1).
  destruct (inv_open s2 c Hinv2 Hc2) as (f2 & file2 & ds2 & Hf2 & Hcore2 & _ & Hm2).
  unfold chunk_at in Hempty, Hone.
  rewrite (current_open _ _ _ _ _ Hf1 Hcore1) in Hempty.
  rewrite (current_open _ _ _ _ _ Hf2 Hcore2) in Hone.
  assert (_max_frame_index s1 = 0) as E1.
  { destruct Hm1 as [_ [?|[x Hx]]]; [done|]. by rewrite Hempty in Hx. }
  assert (_max_frame_index s2 = 0) as E2.
  { destruct Hm2 as [_ [?|Hx]]; [done|]. by apply Hone. }
  rewrite !recorded_range_spec by (done || by eexists).
  rewrite E1, E2, !Z.add_0_r. split; [|done].
  unfold image_nr_low. by rewrite Hc1, Hc2, Hp1, Hp2.
Qed.

(** C10. [_close_file] succeeds on the open container and resets the
    tracking state: the file handle and the chunk number become [None] and
    the high-water-mark 0. Hence what a container records when it is closed
    depends only on its chunk number and on the slots written to it: two
    runs that hold a container of the same chunk with the same slots
    written record the same frame numbers. *)
Theorem close_resets_tracking p s s' c :
  reachable p s -> reachable p s' ->
  _current_frame_chunk s = Some c -> _current_frame_chunk s' = Some c ->
  (forall k, is_Some (chunk_at s k) <-> is_Some (chunk_at s' k)) ->
  (_close_file s).1 = Ok tt /\
  _file (_close_file s).2 = None /\
  _current_frame_chunk (_close_file s).2 = None /\
  _max_frame_index (_close_file s).2 = 0 /\
  recorded_range s = recorded_range s'.
Proof.
  intros Hr1 Hr2 Hc1 Hc2 Hsame.
  destruct (reachable_inv p s Hr1) as [Hinv1 Hp1].
  destruct (reachable_inv p s' Hr2) as [Hinv2 Hp2].
  destruct (inv_open s c Hinv1 Hc1) as (f1 & file1 & ds1 & Hf1 & Hcore1 & _ & Hm1).
  destruct (inv_open s' c Hinv2 Hc2) as (f2 & file2 & ds2 & Hf2 & Hcore2 & _ & Hm2).
  rewrite (_close_file_spec s f1 file1 ds1 c Hf1 Hcore1 (hwm_nonneg _ _ Hm1)).
  repeat split.
  unfold chunk_at in Hsame.
  rewrite (current_open _ _ _ _ _ Hf1 Hcore1) in Hsame.
  rewrite (current_open _ _ _ _ _ Hf2 Hcore2) in Hsame.
  rewrite !recorded_range_spec by (done || by eexists).
  rewrite (hwm_unique _ _ _ _ Hm1 Hm2 Hsame).
  unfold image_nr_low. by rewrite Hc1, Hc2, Hp1, Hp2.
Qed.

Lemma prepared_current s template m :
  inv s ->
  exists f file ds,
    current (prepared s template m) = Some (f, file, ds) /\
    _file (prepared s template m) = Some f /\
    _file (target s template (get_frame_size m) (get_frame_dtype m)
             (chunk_of (params s) (get_frame_index m))) = Some f.
Proof.
  intros Hinv. unfold prepared.
  set (slot := slot_of (params s) (get_frame_index m)).
  set (t := target s template _ _ _).
  destruct (inv_target s template (get_frame_size m) (get_frame_dtype m)
              (chunk_of (params s) (get_frame_index m)) Hinv
              (chunk_of_disabled s _)) as [Hinvt Hct].
  fold t in Hinvt, Hct.
  destruct (inv_fitted slot t Hinvt) as (Hinvf & _ & _ & Hcf).
  rewrite Hct in Hcf.
  destruct (inv_open _ _ Hinvf Hcf) as (f & file & ds & Hfile & Hcore & _).
  exists f, file, ds. rewrite marked_current, marked_file.
  split; [by apply (current_open _ _ _ _ _ Hfile Hcore)|]. split; [done|].
  revert Hfile. unfold fitted.
  destruct (current t) as [[[g fl] d]|]; [|done]. by destruct (_ <? _).
Qed.

Lemma stored_fields slot data s :
  _file (stored slot data s) = _file s /\
  _current_frame_chunk (stored slot data s) = _current_frame_chunk s /\
  _max_frame_index (stored slot data s) = _max_frame_index s.
Proof. unfold stored. by destruct (current s) as [[[f file] ds]|]. Qed.

Lemma fitted_chunk_at slot s k :
  inv s -> chunk_at (fitted slot s) k = chunk_at s k.
Proof.
  intros Hinv. unfold fitted.
  destruct (current s) as [[[f file] ds]|] eqn:Hcur; [|done].
  destruct (Z.ltb_spec slot (ds_shape0 ds)) as [|Hge]; [done|].
  destruct (inv_current s f file ds Hinv Hcur) as (c & Hfile & Hcore & _ & _).
  destruct Hcore as (Hf & Ho & Hd & _ & _ & _ & _ & Hk).
  pose proof (grown_size_fits _ _ Hge) as Hfit.
  unfold chunk_at. rewrite Hcur. unfold current. cbn.
  rewrite Hfile, lookup_insert_eq. cbn. rewrite Ho.
  f_equal. apply map_filter_id. intros j x Hj. cbn.
  assert (is_Some (ds_chunks ds !! j)) as Hsome by (by eexists).
  apply Hk in Hsome. lia.
Qed.

Lemma marked_chunk_at slot s k : chunk_at (marked slot s) k = chunk_at s k.
Proof. unfold chunk_at. by rewrite marked_current. Qed.

Lemma closed_max s : inv s -> _max_frame_index (closed s) = 0.
Proof.
  intros Hinv. pose proof (inv_closed s Hinv) as (Hcur & _).
  rewrite (closed_file s Hinv) in Hcur. by destruct Hcur.
Qed.

(** C3, as the code has it. A negative frame index is not rejected by the
    writer. With chunking disabled the slot is the negative index itself and
    the call fails in [write_direct_chunk]: nothing is stored and the mark
    does not move; a writer that holds a container is left unchanged, and
    one that holds none has created an empty container first. With chunking
    enabled, capacity [C > 0], the frame is routed by floor division to the
    chunk [1 + frame_index / C], which is at most 0, and stored at slot
    [frame_index mod C]. *)
Theorem negative_index_behaviour p s m template :
  reachable p s -> output_file p = Some template -> get_frame_index m < 0 ->
  (truthy (frames_per_file p) = false ->
     (is_Some (_file s) -> process_message m s = (Raise OverflowError, s)) /\
     (_file s = None ->
        process_message m s =
        (Raise OverflowError,
         created s (format_chunk_number template 0) (get_frame_size m)
           (get_frame_dtype m) 0))) /\
  (forall C, frames_per_file p = Some C -> 0 < C ->
     exists s',
       process_message m s = run_plugins _plugins m s' /\
       _current_frame_chunk s' = Some (1 + get_frame_index m / C) /\
       1 + get_frame_index m / C <= 0 /\
       0 <= get_frame_index m mod C < C /\
       chunk_at s' (get_frame_index m mod C) = Some (get_data m)).
Proof.
  intros Hreach Hout Hneg.
  destruct (reachable_inv p s Hreach) as [Hinv <-].
  pose proof (process_message_spec m s template Hinv (or_introl Hout)) as Hspec.
  split.
  - intros Hdis.
    destruct (falsy_chunk_of (params s) (get_frame_index m) Hdis) as [Ec Es].
    assert (slot_of (params s) (get_frame_index m) < 0) as Hslot by lia.
    destruct (Z.ltb_spec (slot_of (params s) (get_frame_index m)) 0); [|lia].
    destruct (inv_prepared_negative m s template Hinv Hslot) as [Hprep _].
    rewrite Hspec, Hprep, Ec. unfold target.
    pose proof (inv_disabled_chunk s Hinv Hdis) as Hc.
    split.
    + intros [f Hfile]. rewrite Hfile in Hc. by rewrite bool_decide_eq_true_2.
    + intros Hfile. rewrite Hfile in Hc.
      rewrite bool_decide_eq_false_2 by congruence.
      unfold closed. by rewrite (current_closed s Hfile).
  - intros C HC Hlt.
    destruct (slot_of_mod (params s) C (get_frame_index m) HC Hlt) as (Ec & Es & _).
    pose proof (Z.mod_pos_bound (get_frame_index m) C Hlt) as Hmod.
    destruct (Z.ltb_spec (slot_of (params s) (get_frame_index m)) 0); [lia|].
    destruct (prepared_current s template m Hinv) as (f & file & ds & Hcur & _).
    destruct (stored_fields (slot_of (params s) (get_frame_index m)) (get_data m)
                (prepared s template m)) as (_ & Hchunk & _).
    eexists. split; [exact Hspec|]. rewrite Hchunk, prepared_chunk, Ec, Es by done.
    split; [done|]. split.
    + pose proof (Z.div_lt_upper_bound (get_frame_index m) C 0 Hlt). lia.
    + split; [done|]. rewrite <- Es. by apply (stored_chunk_at _ _ _ f file ds).
Qed.

(** C4, as the code has it. The high-water-mark is moved by
    [_prepare_storage_for_frame], that is before [write_direct_chunk] is
    called: in the state handed to the write the mark is already the
    maximum of the slot and the mark of the container (0 for a new
    container), while the dataset holds at that slot what it held before.
    The write then stores the payload and leaves the mark as it is. *)
Theorem mark_moves_before_write p s m template :
  reachable p s -> output_file p = Some template ->
  0 <= slot_of p (get_frame_index m) ->
  exists s1,
    _prepare_storage_for_frame (get_frame_index m) (get_frame_size m)
      (get_frame_dtype m) s = (Ok (slot_of p (get_frame_index m)), s1) /\
    _max_frame_index s1 =
      Z.max (if bool_decide (_current_frame_chunk s =
                             Some (chunk_of p (get_frame_index m)))
             then _max_frame_index s else 0)
            (slot_of p (get_frame_index m)) /\
    chunk_at s1 (slot_of p (get_frame_index m)) =
      (if bool_decide (_current_frame_chunk s =
                       Some (chunk_of p (get_frame_index m)))
       then chunk_at s (slot_of p (get_frame_index m)) else None) /\
    process_message m s =
      run_plugins _plugins m
        (stored (slot_of p (get_frame_index m)) (get_data m) s1) /\
    chunk_at (stored (slot_of p (get_frame_index m)) (get_data m) s1)
      (slot_of p (get_frame_index m)) = Some (get_data m) /\
    _max_frame_index (stored (slot_of p (get_frame_index m)) (get_data m) s1) =
      _max_frame_index s1.
Proof.
  intros Hreach Hout Hpos.
  destruct (reachable_inv p s Hreach) as [Hinv <-].
  exists (prepared s template m).
  split; [by apply _prepare_storage_for_frame_spec; [|left]|].
  destruct (inv_target s template (get_frame_size m) (get_frame_dtype m)
              (chunk_of (params s) (get_frame_index m)) Hinv
              (chunk_of_disabled s _)) as [Hinvt Hct].
  destruct (inv_fitted (slot_of (params s) (get_frame_index m)) _ Hinvt)
    as (_ & _ & Hmax & _).
  split; [|split; [|split; [|split]]].
  - unfold prepared. rewrite marked_max, Hmax. unfold target.
    case_bool_decide; [done|]. cbn. by rewrite closed_max.
  - unfold prepared. rewrite marked_chunk_at, fitted_chunk_at by done.
    unfold target. case_bool_decide; [done|].
    unfold chunk_at, current. cbn. rewrite lookup_insert_eq. cbn.
    apply lookup_empty.
  - rewrite (process_message_spec m s template Hinv (or_introl Hout)).
    by destruct (Z.ltb_spec (slot_of (params s) (get_frame_index m)) 0); [lia|].
  - destruct (prepared_current s template m Hinv) as (f & file & ds & Hcur & _).
    by apply (stored_chunk_at _ _ _ f file ds).
  - apply stored_fields.
Qed.

(** C5, as the code has it (with [compact_dataset] modelled from the
    spec). Closing a container resizes its dataset to
    [_max_frame_index + 1]. When at least one frame was written the mark is
    the highest written slot, so the capacity is exactly that slot plus 1;
    when nothing was written the mark is still its initial 0 and the
    dataset is resized to one slot, whatever its initial allocation. *)
Theorem close_shrinks_to_mark p s f :
  reachable p s -> _file s = Some f ->
  capacity_of (fs (_close_file s).2) f = Some (_max_frame_index s + 1) /\
  ((exists k, is_Some (chunk_at s k)) ->
     is_Some (chunk_at s (_max_frame_index s)) /\
     forall k, is_Some (chunk_at s k) -> k <= _max_frame_index s) /\
  ((forall k, chunk_at s k = None) ->
     capacity_of (fs (_close_file s).2) f = Some 1).
Proof.
  intros Hreach Hfile.
  destruct (reachable_inv p s Hreach) as [Hinv _].
  pose proof Hinv as (Hcur & _). rewrite Hfile in Hcur.
  destruct Hcur as (file & ds & c & Hcore & _ & Hm).
  rewrite (_close_file_spec s f file ds c Hfile Hcore (hwm_nonneg _ _ Hm)).
  unfold chunk_at. rewrite (current_open s f file ds c Hfile Hcore).
  unfold capacity_of. cbn. rewrite lookup_insert_eq. cbn.
  destruct Hm as [Hm1 Hm2]. split; [done|]. split.
  - intros [k Hk]. split; [|intros j Hj; apply Hm1 in Hj; lia].
    destruct Hm2 as [E|Hm2]; [|done]. rewrite E.
    pose proof (Hm1 k Hk) as Hk0. assert (k = 0) as <- by lia. done.
  - intros Hempty. destruct Hm2 as [->|[x Hx]]; [done|]. by rewrite Hempty in Hx.
Qed.

Lemma fitted_file slot s : _file (fitted slot s) = _file s.
Proof.
  unfold fitted. destruct (current s) as [[[f file] ds]|]; [|done].
  by destruct (_ <? _).
Qed.

(** C6. A frame whose chunk differs from the chunk of the open container
    makes the writer finalize that container exactly once (one compaction,
    one write of the frame-number attributes, one population, one close) and
    only then open the new one; what follows only grows the new dataset or
    stores the frame in it. At every instant of the run at most one
    container is open. *)
Theorem rollover_closes_once p s m template f :
  reachable p s -> output_file p = Some template -> _file s = Some f ->
  _current_frame_chunk s <> Some (chunk_of p (get_frame_index m)) ->
  exists rest,
    log (process_message m s).2 =
      log s ++
      [EvCompact f (_max_frame_index s);
       EvSetAttributes f (image_nr_low s) (_max_frame_index s + image_nr_low s);
       EvPopulate f; EvFileClose f;
       EvFileOpen (format_chunk_number template (chunk_of p (get_frame_index m)));
       EvCreateDataset (format_chunk_number template (chunk_of p (get_frame_index m)))]
      ++ rest /\
    Forall (grows_or_stores
              (format_chunk_number template (chunk_of p (get_frame_index m)))) rest /\
    open_after (log s) = Some (Some f) /\
    open_after (log (process_message m s).2) =
      Some (Some (format_chunk_number template (chunk_of p (get_frame_index m)))).
Proof.
  intros Hreach Hout Hfile Hne.
  destruct (reachable_inv p s Hreach) as [Hinv <-].
  destruct (inv_process_message m s Hinv) as [(_ & _ & Hlog') _].
  pose proof Hinv as (Hcur & _ & Hlog). rewrite Hfile in Hcur, Hlog.
  destruct Hcur as (file & ds & c & Hcore & _).
  set (fn := format_chunk_number template (chunk_of (params s) (get_frame_index m))) in *.
  set (slot := slot_of (params s) (get_frame_index m)).
  set (t := target s template (get_frame_size m) (get_frame_dtype m)
              (chunk_of (params s) (get_frame_index m))).
  assert (t = created (finalized s f file ds) fn (get_frame_size m) (get_frame_dtype m)
                (chunk_of (params s) (get_frame_index m))) as Ht.
  { unfold t, target. rewrite bool_decide_eq_false_2 by done.
    unfold closed. by rewrite (current_open s f file ds c Hfile Hcore). }
  assert (log t = log s ++ close_events s f ++ [EvFileOpen fn; EvCreateDataset fn]) as Hlt.
  { rewrite Ht. cbn. by rewrite <- app_assoc. }
  destruct (prepared_current s template m Hinv) as (g & fl & d & Hcurp & Hfp & Hft).
  fold t in Hft. assert (g = fn) as -> by (rewrite Ht in Hft; cbn in Hft; congruence).
  assert (exists ft dt, current t = Some (fn, ft, dt)) as (ft & dt & Hcurt).
  { rewrite Ht. unfold current. cbn. rewrite lookup_insert_eq. cbn. by eexists _, _. }
  destruct (fitted_log slot t fn ft dt Hcurt) as (r1 & Hr1 & HF1).
  assert (log (prepared s template m) = log s ++ close_events s f ++
            [EvFileOpen fn; EvCreateDataset fn] ++ r1) as Hlp.
  { unfold prepared. fold t slot. rewrite marked_log, Hr1, Hlt.
    by rewrite <- !app_assoc. }
  rewrite (process_message_spec m s template Hinv (or_introl Hout)) in Hlog' |- *.
  fold slot in Hlog' |- *.
  destruct (slot <? 0).
  - exists r1. cbn [snd] in *. rewrite Hlog', Hfp. repeat split; try done.
  - rewrite run_plugins_state in Hlog' |- *.
    exists (r1 ++ [EvWriteChunk fn slot]).
    rewrite Hlog'. destruct (stored_fields slot (get_data m) (prepared s template m))
      as (-> & _). rewrite Hfp.
    rewrite (stored_log slot (get_data m) _ fn fl d Hcurp), Hlp.
    split; [cbn; by rewrite <- !app_assoc|]. split; [|done].
    apply Forall_app. split; [done|]. by repeat constructor.
Qed.

(** C8. With chunking enabled, a frame that belongs to a chunk other than
    the open one has the output file of its chunk created anew, also when
    that file exists already with the frames and attributes of an earlier
    visit to the chunk: after the call the file holds no attribute and the
    single chunk of this frame. *)
Theorem reopened_chunk_file_is_truncated p s m template C old :
  reachable p s -> output_file p = Some template ->
  frames_per_file p = Some C -> 0 < C ->
  _current_frame_chunk s <> Some (1 + get_frame_index m / C) ->
  fs s !! format_chunk_number template (1 + get_frame_index m / C) = Some old ->
  exists file ds,
    fs (process_message m s).2
      !! format_chunk_number template (1 + get_frame_index m / C) = Some file /\
    h5_open file = true /\
    h5_attrs file = ∅ /\
    h5_dataset file = Some ds /\
    ds_chunks ds = {[ get_frame_index m mod C := get_data m ]}.
Proof.
  intros Hreach Hout HC Hlt Hne Hold.
  destruct (reachable_inv p s Hreach) as [Hinv <-].
  destruct (slot_of_mod (params s) C (get_frame_index m) HC Hlt) as (Ec & Es & _).
  pose proof (Z.mod_pos_bound (get_frame_index m) C Hlt) as Hmod.
  rewrite (process_message_spec m s template Hinv (or_introl Hout)).
  rewrite Es. destruct (Z.ltb_spec (get_frame_index m mod C) 0); [lia|].
  rewrite run_plugins_state. unfold prepared. rewrite Ec, Es.
  set (fn := format_chunk_number template (1 + get_frame_index m / C)) in *.
  set (slot := get_frame_index m mod C) in *.
  unfold target. rewrite bool_decide_eq_false_2 by done. fold fn.
  set (t := created (closed s) fn (get_frame_size m) (get_frame_dtype m)
              (1 + get_frame_index m / C)).
  assert (exists n,
    current (fitted slot t) =
      Some (fn,
            with_dataset
              {| ds_name := dataset_name (params (closed s));
                 ds_frame_size := get_frame_size m; ds_dtype := get_frame_dtype m;
                 ds_compression := compression (params (closed s));
                 ds_compression_opts := compression_opts (params (closed s));
                 ds_shape0 := n; ds_chunks := ∅ |} new_file,
            {| ds_name := dataset_name (params (closed s));
               ds_frame_size := get_frame_size m; ds_dtype := get_frame_dtype m;
               ds_compression := compression (params (closed s));
               ds_compression_opts := compression_opts (params (closed s));
               ds_shape0 := n; ds_chunks := ∅ |})) as [n Hcur].
  { unfold fitted, t, current at 2. cbn. rewrite lookup_insert_eq. cbn.
    destruct (slot <? initial_dataset_size).
    - exists initial_dataset_size. unfold current. cbn. by rewrite lookup_insert_eq.
    - exists (grown_size initial_dataset_size slot). unfold current. cbn.
      rewrite lookup_insert_eq. cbn. unfold resize, with_dataset. cbn.
      by rewrite map_filter_empty. }
  unfold stored. rewrite marked_current, Hcur. cbn. rewrite lookup_insert_eq.
  eexists _, _. repeat split.
Qed.

(** ** Further properties of the writer *)

Lemma stored_chunk_at_ne slot data s k :
  k <> slot -> chunk_at (stored slot data s) k = chunk_at s k.
Proof.
  intros Hne. unfold chunk_at, stored.
  destruct (current s) as [[[f file] ds]|] eqn:Hcur; [|by rewrite Hcur].
  unfold current in *. cbn.
  destruct (_file s) as [g|]; [|done].
  destruct (fs s !! g) as [file'|] eqn:Hg; [|done].
  destruct (h5_dataset file'); [|done].
  destruct (h5_open file') eqn:Ho; [|done]. inversion Hcur; subst.
  rewrite lookup_insert_eq. cbn. rewrite Ho. by apply lookup_insert_ne.
Qed.

Lemma prepared_chunk_at s template m k :
  inv s ->
  chunk_at (prepared s template m) k =
  if bool_decide (_current_frame_chunk s =
                  Some (chunk_of (params s) (get_frame_index m)))
  then chunk_at s k else None.
Proof.
  intros Hinv.
  destruct (inv_target s template (get_frame_size m) (get_frame_dtype m)
              (chunk_of (params s) (get_frame_index m)) Hinv
              (chunk_of_disabled s _)) as [Hinvt _].
  unfold prepared. rewrite marked_chunk_at, fitted_chunk_at by done.
  unfold target. case_bool_decide; [done|].
  unfold chunk_at, current. cbn. rewrite lookup_insert_eq. cbn.
  apply lookup_empty.
Qed.

Lemma closed_chunk_at s k : inv s -> chunk_at (closed s) k = None.
Proof.
  intros Hinv. unfold chunk_at.
  by rewrite (current_closed _ (closed_file s Hinv)).
Qed.

(** The slots of the open dataset after [process_message]: those of the
    container it went on with, and the slot of the frame. *)
Lemma process_message_chunk_at m s k :
  inv s ->
  is_Some (chunk_at (process_message m s).2 k) ->
  k = slot_of (params s) (get_frame_index m) \/
  (_current_frame_chunk s = Some (chunk_of (params s) (get_frame_index m)) /\
   is_Some (chunk_at s k)).
Proof.
  intros Hinv.
  assert (forall template,
    output_file (params s) = Some template \/
      _current_frame_chunk s = Some (chunk_of (params s) (get_frame_index m)) ->
    is_Some (chunk_at (process_message m s).2 k) ->
    k = slot_of (params s) (get_frame_index m) \/
    (_current_frame_chunk s = Some (chunk_of (params s) (get_frame_index m)) /\
     is_Some (chunk_at s k))) as Hok.
  { intros template Hout.
    rewrite (process_message_spec m s template Hinv Hout).
    destruct (slot_of (params s) (get_frame_index m) <? 0); cbn [snd].
    - rewrite prepared_chunk_at by done. case_bool_decide; [by right|].
      by intros [? ?].
    - rewrite run_plugins_state.
      destruct (decide (k = slot_of (params s) (get_frame_index m))); [by left|].
      rewrite stored_chunk_at_ne, prepared_chunk_at by done.
      case_bool_decide; [by right|]. by intros [? ?]. }
  destruct (output_file (params s)) as [template|] eqn:Hout.
  - apply (Hok template). by left.
  - destruct (decide (_current_frame_chunk s =
                      Some (chunk_of (params s) (get_frame_index m)))) as [E|Hne].
    + apply (Hok EmptyString). by right.
    + rewrite (process_message_fails m s Hinv Hout Hne). cbn.
      rewrite closed_chunk_at by done. by intros [? ?].
Qed.

Lemma fs_closed_other s g :
  _file s <> Some g -> fs (closed s) !! g = fs s !! g.
Proof.
  intros Hne. unfold closed.
  destruct (current s) as [[[f file] ds]|] eqn:Hcur; [|done].
  cbn. apply lookup_insert_ne. intros ->. apply Hne.
  unfold current in Hcur. destruct (_file s) as [f'|]; [|done].
  destruct (fs s !! f'); [|done]. destruct (h5_dataset _); [|done].
  destruct (h5_open _); [|done]. by inversion Hcur.
Qed.

Lemma current_file s f file ds :
  current s = Some (f, file, ds) -> _file s = Some f.
Proof.
  unfold current. destruct (_file s) as [f'|]; [|done].
  destruct (fs s !! f'); [|done]. destruct (h5_dataset _); [|done].
  destruct (h5_open _); [|done]. intros E. by inversion E.
Qed.

Lemma fs_fitted_other slot s g :
  _file s <> Some g -> fs (fitted slot s) !! g = fs s !! g.
Proof.
  intros Hne. unfold fitted.
  destruct (current s) as [[[f file] ds]|] eqn:Hcur; [|done].
  destruct (_ <? _); [done|]. cbn. apply lookup_insert_ne.
  intros ->. by rewrite (current_file _ _ _ _ Hcur) in Hne.
Qed.

Lemma fs_stored_other slot data s g :
  _file s <> Some g -> fs (stored slot data s) !! g = fs s !! g.
Proof.
  intros Hne. unfold stored.
  destruct (current s) as [[[f file] ds]|] eqn:Hcur; [|done].
  cbn. apply lookup_insert_ne.
  intros ->. by rewrite (current_file _ _ _ _ Hcur) in Hne.
Qed.

Lemma fs_marked slot s : fs (marked slot s) = fs s.
Proof. unfold marked. by destruct (_ <? _). Qed.

Lemma process_message_state m s template :
  inv s ->
  output_file (params s) = Some template \/
    _current_frame_chunk s = Some (chunk_of (params s) (get_frame_index m)) ->
  0 <= slot_of (params s) (get_frame_index m) ->
  (process_message m s).2 =
  stored (slot_of (params s) (get_frame_index m)) (get_data m)
    (prepared s template m).
Proof.
  intros Hinv Hout Hpos. rewrite (process_message_spec m s template Hinv Hout).
  destruct (Z.ltb_spec (slot_of (params s) (get_frame_index m)) 0); [lia|].
  apply run_plugins_state.
Qed.

Lemma process_message_chunk m s template :
  inv s -> output_file (params s) = Some template ->
  _current_frame_chunk (process_message m s).2 =
  Some (chunk_of (params s) (get_frame_index m)).
Proof.
  intros Hinv Hout.
  rewrite (process_message_spec m s template Hinv (or_introl Hout)).
  destruct (_ <? 0); cbn [snd].
  - by apply prepared_chunk.
  - rewrite run_plugins_state.
    destruct (stored_fields (slot_of (params s) (get_frame_index m)) (get_data m)
                (prepared s template m)) as (_ & -> & _).
    by apply prepared_chunk.
Qed.

(** X1. [start] only validates: it leaves the writer and the disk as they
    are, returns normally exactly when [dataset_name] and [output_file] are
    both set to a non-empty string, and otherwise raises [ValueError]. *)
Theorem start_checks_required_parameters s :
  (start s).2 = s /\
  ((start s).1 = Ok tt <->
     truthy_str (dataset_name (params s)) = true /\
     truthy_str (output_file (params s)) = true) /\
  ((start s).1 <> Ok tt -> exists msg, (start s).1 = Raise (ValueError msg)).
Proof.
  split; [apply start_state|].
  unfold start, _validate_parameters, bind, get.
  destruct (truthy_str (dataset_name (params s))),
           (truthy_str (output_file (params s))); cbn.
  all: split; [split; [try done; by intros [? ?] | try done; by intros [? ?]] |].
  all: intros H; try done; by eexists.
Qed.

(** X2. While [output_file] is unset the writer never reaches the backend:
    it holds no container, no backend call was made, and every
    [process_message] raises [AttributeError] and changes nothing. *)
Theorem unset_output_file_never_writes p s m :
  reachable p s -> output_file p = None ->
  _file s = None /\ log s = [] /\
  process_message m s = (Raise AttributeError, s).
Proof.
  intros Hreach Hout.
  assert (forall s, reachable p s -> _file s = None /\ log s = [] /\
            forall m, process_message m s = (Raise AttributeError, s)) as Hall.
  { clear s m Hreach. intros s Hreach.
    assert (_file s = None /\ log s = [] ->
            forall m, process_message m s = (Raise AttributeError, s)) as Hstep.
    { intros [Hfile _] m.
      destruct (reachable_inv p s Hreach) as [Hinv Hp].
      rewrite (process_message_fails m s Hinv).
      - unfold closed. by rewrite (current_closed s Hfile).
      - by rewrite Hp.
      - pose proof Hinv as (Hcur & _). rewrite Hfile in Hcur.
        destruct Hcur as [-> _]. done. }
    assert (_file s = None /\ log s = []) as Hidle.
    { clear Hstep.
      induction Hreach as [disk Hdisk|s Hr IH|s m Hr IH|s Hr IH].
      - done.
      - by rewrite start_state.
      - destruct (reachable_inv p s Hr) as [Hinv Hp]. destruct IH as [Hfile Hlog].
        rewrite (process_message_fails m s Hinv).
        + cbn. unfold closed. by rewrite (current_closed s Hfile).
        + by rewrite Hp.
        + pose proof Hinv as (Hcur & _). rewrite Hfile in Hcur.
          destruct Hcur as [-> _]. done.
      - destruct (reachable_inv p s Hr) as [Hinv _]. destruct IH as [Hfile Hlog].
        rewrite (stop_spec s Hinv). cbn. unfold closed.
        by rewrite (current_closed s Hfile). }
    destruct Hidle. repeat split; try done. by apply Hstep. }
  destruct (Hall s Hreach) as (? & ? & H). by rewrite H.
Qed.

(** X3. Between two calls the size the writer remembers is the extent of
    the open dataset, every stored chunk lies inside that extent and not
    above the high-water-mark, and the mark is not negative. *)
Theorem cached_size_matches_dataset p s f file ds :
  reachable p s -> current s = Some (f, file, ds) ->
  _current_dataset_size s = Some (ds_shape0 ds) /\
  _dataset s = Some f /\
  (forall k, is_Some (ds_chunks ds !! k) ->
     0 <= k < ds_shape0 ds /\ k <= _max_frame_index s) /\
  0 <= _max_frame_index s.
Proof.
  intros Hreach Hcur. destruct (reachable_inv p s Hreach) as [Hinv _].
  destruct (inv_current s f file ds Hinv Hcur) as (c & Hfile & Hcore & _ & Hm).
  destruct Hcore as (_ & _ & _ & Hds & Hsz & _ & _ & Hk).
  repeat split; try done; try (by apply Hk).
  - destruct Hm as [Hm _]. apply Hm in H. lia.
  - by apply hwm_nonneg in Hm.
Qed.

(** X4. A frame of the chunk that is open is stored at its slot, replacing
    what the slot held; every other slot keeps its payload, the container
    stays the open one, and the mark becomes the maximum of the old mark
    and the slot. *)
Theorem frame_overwrites_only_its_slot p s m :
  reachable p s ->
  _current_frame_chunk s = Some (chunk_of p (get_frame_index m)) ->
  0 <= slot_of p (get_frame_index m) ->
  chunk_at (process_message m s).2 (slot_of p (get_frame_index m)) =
    Some (get_data m) /\
  (forall k, k <> slot_of p (get_frame_index m) ->
     chunk_at (process_message m s).2 k = chunk_at s k) /\
  _file (process_message m s).2 = _file s /\
  _max_frame_index (process_message m s).2 =
    Z.max (_max_frame_index s) (slot_of p (get_frame_index m)).
Proof.
  intros Hreach Hc Hpos. destruct (reachable_inv p s Hreach) as [Hinv <-].
  rewrite (process_message_state m s EmptyString Hinv (or_intror Hc) Hpos).
  destruct (prepared_current s EmptyString m Hinv) as (f & file & ds & Hcur & Hfp & Hft).
  destruct (stored_fields (slot_of (params s) (get_frame_index m)) (get_data m)
              (prepared s EmptyString m)) as (Ef & _ & Em).
  split; [by apply (stored_chunk_at _ _ _ f file ds)|]. split; [|split].
  - intros k Hk. rewrite stored_chunk_at_ne, prepared_chunk_at by done.
    by rewrite bool_decide_eq_true_2.
  - rewrite Ef, Hfp, <- Hft. unfold target. by rewrite bool_decide_eq_true_2.
  - rewrite Em. unfold prepared. rewrite marked_max.
    unfold target. rewrite bool_decide_eq_true_2 by done.
    destruct (inv_fitted (slot_of (params s) (get_frame_index m)) s Hinv)
      as (_ & _ & -> & _). done.
Qed.

(** X5. A frame of the chunk that is open causes no rollover: the backend
    is only asked to grow the open dataset or to store the chunk in it. *)
Theorem same_chunk_no_rollover p s m f :
  reachable p s -> _file s = Some f ->
  _current_frame_chunk s = Some (chunk_of p (get_frame_index m)) ->
  exists rest,
    log (process_message m s).2 = log s ++ rest /\
    Forall (grows_or_stores f) rest /\
    _file (process_message m s).2 = Some f.
Proof.
  intros Hreach Hfile Hc. destruct (reachable_inv p s Hreach) as [Hinv <-].
  pose proof Hinv as (Hcur & _). rewrite Hfile in Hcur.
  destruct Hcur as (file & ds & c & Hcore & _).
  pose proof (current_open s f file ds c Hfile Hcore) as Hcs.
  destruct (fitted_log (slot_of (params s) (get_frame_index m)) s f file ds Hcs)
    as (r1 & Hr1 & HF1).
  assert (prepared s EmptyString m =
          marked (slot_of (params s) (get_frame_index m))
            (fitted (slot_of (params s) (get_frame_index m)) s)) as Hprep.
  { unfold prepared, target. by rewrite bool_decide_eq_true_2. }
  destruct (prepared_current s EmptyString m Hinv) as (g & fl & d & Hcurp & Hfp & Hft).
  assert (g = f) as ->.
  { revert Hft. unfold target. rewrite bool_decide_eq_true_2 by done. congruence. }
  rewrite (process_message_spec m s EmptyString Hinv (or_intror Hc)).
  destruct (_ <? 0); cbn [snd].
  - exists r1. by rewrite Hfp, Hprep, marked_log.
  - rewrite run_plugins_state.
    exists (r1 ++ [EvWriteChunk f (slot_of (params s) (get_frame_index m))]).
    rewrite (stored_log _ _ _ f fl d Hcurp).
    destruct (stored_fields (slot_of (params s) (get_frame_index m)) (get_data m)
                (prepared s EmptyString m)) as (-> & _).
    rewrite Hfp, Hprep, marked_log, Hr1, <- app_assoc.
    split; [done|]. split; [|done].
    apply Forall_app. split; [done|]. by repeat constructor.
Qed.

(** X6. [process_message] touches two files at most, the one that was open
    and the one of the frame's chunk: every other file on disk is left as
    it was. *)
Theorem other_files_untouched p s m template g :
  reachable p s -> output_file p = Some template ->
  _file s <> Some g ->
  g <> format_chunk_number template (chunk_of p (get_frame_index m)) ->
  fs (process_message m s).2 !! g = fs s !! g.
Proof.
  intros Hreach Hout Hng Hnt. destruct (reachable_inv p s Hreach) as [Hinv <-].
  set (t := target s template (get_frame_size m) (get_frame_dtype m)
              (chunk_of (params s) (get_frame_index m))).
  assert (_file t <> Some g /\ fs t !! g = fs s !! g) as [Hft Hfs].
  { unfold t, target. case_bool_decide; [done|]. cbn. split; [congruence|].
    rewrite lookup_insert_ne by done. by apply fs_closed_other. }
  assert (fs (prepared s template m) !! g = fs s !! g /\
          _file (prepared s template m) <> Some g) as [Hp Hfp].
  { unfold prepared. fold t. rewrite fs_marked, marked_file, fitted_file.
    split; [|done]. by rewrite fs_fitted_other. }
  rewrite (process_message_spec m s template Hinv (or_introl Hout)).
  destruct (_ <? 0); cbn [snd]; [done|].
  rewrite run_plugins_state. by rewrite fs_stored_other.
Qed.

(** X7. After [stop] no file on the disk is open and the writer holds no
    container. *)
Theorem stop_leaves_every_file_closed p s :
  reachable p s ->
  all_closed (fs (stop s).2) /\ _file (stop s).2 = None /\
  _current_frame_chunk (stop s).2 = None.
Proof.
  intros Hreach. destruct (reachable_inv p s Hreach) as [Hinv _].
  rewrite (stop_spec s Hinv). cbn.
  pose proof (inv_closed s Hinv) as Hinvc.
  pose proof (closed_file s Hinv) as Hfile.
  split; [by apply inv_all_closed|]. split; [done|].
  destruct Hinvc as (Hcur & _). rewrite Hfile in Hcur. by destruct Hcur.
Qed.

Lemma image_nr_low_slot s c i :
  _current_frame_chunk s = Some c -> c = chunk_of (params s) i ->
  image_nr_low s + slot_of (params s) i = i + 1.
Proof.
  intros Hc ->. unfold image_nr_low, chunk_of, slot_of in *. rewrite Hc.
  destruct (frames_per_file (params s)) as [n|]; [|lia].
  destruct (n =? 0); lia.
Qed.

(** X8. Once a frame with a non-negative slot has been processed, closing
    the container records a range of frame numbers that contains the
    number of the frame (its index plus 1), and the frame is found at the
    slot that is its number minus the recorded low. *)
Theorem recorded_range_contains_frame p s m template :
  reachable p s -> output_file p = Some template ->
  0 <= slot_of p (get_frame_index m) ->
  exists low high,
    recorded_range (process_message m s).2 = Some (low, high) /\
    low <= get_frame_index m + 1 <= high /\
    chunk_at (process_message m s).2 (get_frame_index m + 1 - low) =
      Some (get_data m).
Proof.
  intros Hreach Hout Hpos.
  pose proof (reach_process_message p s m Hreach) as Hreach'.
  destruct (reachable_inv p s Hreach) as [Hinv Hp].
  destruct (reachable_inv p _ Hreach') as [Hinv' Hp']. subst p.
  pose proof (process_message_chunk m s template Hinv Hout) as Hc.
  destruct (inv_open _ _ Hinv' Hc) as (f & file & ds & Hfile & _ & _ & Hm).
  pose proof (image_nr_low_slot (process_message m s).2 _ (get_frame_index m) Hc) as Hlow.
  rewrite Hp' in Hlow. specialize (Hlow eq_refl).
  pose proof (process_message_state m s template Hinv (or_introl Hout) Hpos) as Hst.
  destruct (prepared_current s template m Hinv) as (g & fl & d & Hcur & _).
  pose proof (stored_chunk_at (slot_of (params s) (get_frame_index m)) (get_data m)
                _ g fl d Hcur) as Hat.
  rewrite <- Hst in Hat.
  assert (slot_of (params s) (get_frame_index m) <=
          _max_frame_index (process_message m s).2) as Hle.
  { rewrite Hst. destruct (stored_fields (slot_of (params s) (get_frame_index m))
      (get_data m) (prepared s template m)) as (_ & _ & ->).
    unfold prepared. rewrite marked_max. lia. }
  eexists _, _. split; [apply recorded_range_spec; [done | by eexists]|].
  split; [lia|].
  replace (get_frame_index m + 1 - image_nr_low (process_message m s).2)
    with (slot_of (params s) (get_frame_index m)) by lia.
  done.
Qed.

(** X9. Closing a container discards no frame: the file is closed with the
    chunks the open dataset held, the dataset resized to the mark plus 1. *)
Theorem close_keeps_every_written_chunk p s f file ds :
  reachable p s -> current s = Some (f, file, ds) ->
  exists file' ds',
    fs (stop s).2 !! f = Some file' /\
    h5_open file' = false /\
    h5_dataset file' = Some ds' /\
    ds_chunks ds' = ds_chunks ds /\
    ds_shape0 ds' = _max_frame_index s + 1.
Proof.
  intros Hreach Hcur. destruct (reachable_inv p s Hreach) as [Hinv _].
  destruct (inv_current s f file ds Hinv Hcur) as (c & Hfile & _ & _ & Hm1 & _).
  rewrite (stop_spec s Hinv). unfold closed. rewrite Hcur. cbn.
  rewrite lookup_insert_eq. eexists _, _. repeat split.
  apply map_filter_id. intros k x Hk. cbn.
  assert (is_Some (ds_chunks ds !! k)) as Hsome by (by eexists).
  apply Hm1 in Hsome. lia.
Qed.

(** X10. [frames_per_file] is not validated: with a negative value the slot
    of a frame is [frame_index mod frames_per_file], which is negative
    unless the index is a multiple of it, and such a frame is refused by
    the backend after its container has been prepared. *)
Theorem negative_frames_per_file_refuses_frames p s m template C :
  reachable p s -> output_file p = Some template ->
  frames_per_file p = Some C -> C < 0 ->
  get_frame_index m mod C <> 0 ->
  (process_message m s).1 = Raise OverflowError /\
  forall k, chunk_at (process_message m s).2 k =
    if bool_decide (_current_frame_chunk s = Some (get_frame_index m / C + 1))
    then chunk_at s k else None.
Proof.
  intros Hreach Hout HC Hneg Hmod. destruct (reachable_inv p s Hreach) as [Hinv <-].
  assert (chunk_of (params s) (get_frame_index m) = get_frame_index m / C + 1 /\
          slot_of (params s) (get_frame_index m) = get_frame_index m mod C) as [Ec Es].
  { unfold chunk_of, slot_of. rewrite HC. destruct (Z.eqb_spec C 0); [lia|].
    rewrite (Z.mod_eq _ C) by lia. split; lia. }
  pose proof (Z.mod_neg_bound (get_frame_index m) C Hneg) as Hb.
  rewrite (process_message_spec m s template Hinv (or_introl Hout)), Es.
  destruct (Z.ltb_spec (get_frame_index m mod C) 0); [|lia]. cbn.
  split; [done|]. intros k. by rewrite prepared_chunk_at, Ec.
Qed.

(** X11. With [frames_per_file = C > 0] a container never holds a slot
    outside [0, C): the mark stays below [C], and the frame numbers a
    container of chunk [c] records lie between [(c - 1) * C + 1] and
    [c * C]. *)
Theorem container_never_exceeds_capacity p s C :
  reachable p s -> frames_per_file p = Some C -> 0 < C ->
  (forall k, is_Some (chunk_at s k) -> 0 <= k < C) /\
  0 <= _max_frame_index s < C /\
  (forall c, _current_frame_chunk s = Some c ->
     exists high,
       recorded_range s = Some ((c - 1) * C + 1, high) /\
       (c - 1) * C + 1 <= high <= c * C).
Proof.
  intros Hreach HC Hpos.
  assert (forall k, is_Some (chunk_at s k) -> 0 <= k < C) as Hslots.
  { induction Hreach as [disk Hdisk|s Hr IH|s m Hr IH|s Hr IH].
    - intros k [x Hx]. by cbn in Hx.
    - by rewrite start_state.
    - destruct (reachable_inv p s Hr) as [Hinv Hp]. intros k Hk.
      apply (process_message_chunk_at m s k Hinv) in Hk as [->|[_ Hk]];
        [|by apply IH].
      rewrite Hp. destruct (slot_of_mod p C (get_frame_index m) HC Hpos) as (_ & -> & _).
      by apply Z.mod_pos_bound.
    - destruct (reachable_inv p s Hr) as [Hinv _]. intros k [x Hx].
      rewrite (stop_spec s Hinv) in Hx. cbn in Hx.
      by rewrite closed_chunk_at in Hx. }
  destruct (reachable_inv p s Hreach) as [Hinv Hp].
  assert (0 <= _max_frame_index s < C) as Hmark.
  { pose proof Hinv as (Hcur & _). destruct (_file s) as [f|] eqn:Hfile.
    - destruct Hcur as (file & ds & c & Hcore & _ & Hm1 & Hm2).
      destruct Hm2 as [->|Hm2]; [lia|]. apply Hslots.
      unfold chunk_at. by rewrite (current_open s f file ds c Hfile Hcore).
    - destruct Hcur as [_ ->]. lia. }
  split; [done|]. split; [done|].
  intros c Hc. destruct (inv_open s c Hinv Hc) as (f & file & ds & Hfile & _).
  rewrite (recorded_range_spec s Hinv) by (by eexists).
  unfold image_nr_low. rewrite Hc, Hp, HC.
  destruct (Z.eqb_spec C 0); [lia|]. eexists. split; [done|]. lia.
Qed.

Lemma highest_cons m ms :
  highest (m :: ms) = Z.max (get_frame_index m) (highest ms).
Proof. reflexivity. Qed.

Lemma highest_nonneg ms : 0 <= highest ms.
Proof. induction ms as [|m ms IH]; [done|]. rewrite highest_cons. lia. Qed.

Lemma highest_ge ms m : m ∈ ms -> get_frame_index m <= highest ms.
Proof.
  induction ms as [|m' ms IH]; [by intros ?%elem_of_nil|].
  rewrite highest_cons.
  intros [->|Hin]%elem_of_cons; [lia|]. specialize (IH Hin). lia.
Qed.

Lemma highest_le ms b :
  0 <= b -> (forall m, m ∈ ms -> get_frame_index m <= b) -> highest ms <= b.
Proof.
  intros Hb. induction ms as [|m ms IH]; intros Hall; [done|].
  rewrite highest_cons.
  pose proof (Hall m (list_elem_of_here _ _)).
  assert (highest ms <= b) by (apply IH; intros m' Hm'; apply Hall; by right).
  lia.
Qed.

Lemma unchunked_step_chunk_at p s m template k :
  reachable p s -> truthy (frames_per_file p) = false ->
  output_file p = Some template -> 0 <= get_frame_index m ->
  is_Some (chunk_at (process_message m s).2 k) <->
  k = get_frame_index m \/ is_Some (chunk_at s k).
Proof.
  intros Hreach Hdis Hout Hpos. destruct (reachable_inv p s Hreach) as [Hinv <-].
  destruct (falsy_chunk_of (params s) (get_frame_index m) Hdis) as [Ec Es].
  split.
  - intros Hk. apply (process_message_chunk_at m s k Hinv) in Hk as [->|[_ Hk]];
      [left; by rewrite Es | by right].
  - assert (0 <= slot_of (params s) (get_frame_index m)) as Hslot by lia.
    rewrite (process_message_state m s template Hinv (or_introl Hout) Hslot), Es.
    destruct (prepared_current s template m Hinv) as (g & fl & d & Hcur & _).
    intros [->|Hk].
    + rewrite (stored_chunk_at _ _ _ g fl d Hcur). by eexists.
    + destruct (decide (k = get_frame_index m)) as [->|Hne].
      * rewrite (stored_chunk_at _ _ _ g fl d Hcur). by eexists.
      * rewrite stored_chunk_at_ne, prepared_chunk_at, Ec by done.
        rewrite bool_decide_eq_true_2; [done|].
        pose proof (inv_disabled_chunk s Hinv Hdis) as Hc.
        destruct (_file s) as [f|] eqn:Hfile; [done|].
        unfold chunk_at in Hk. rewrite (current_closed s Hfile) in Hk.
        by destruct Hk.
Qed.

Lemma unchunked_run_chunk_at p template ms :
  truthy (frames_per_file p) = false -> output_file p = Some template ->
  Forall (fun m => 0 <= get_frame_index m) ms ->
  forall s k, reachable p s ->
    is_Some (chunk_at (run ms s) k) <->
    (exists m, m ∈ ms /\ get_frame_index m = k) \/ is_Some (chunk_at s k).
Proof.
  intros Hdis Hout Hall. induction Hall as [|m ms Hm Hall IH]; intros s k Hreach.
  - cbn. split; [by right|]. intros [(m & Hin & _)|H]; [|done].
    by apply elem_of_nil in Hin.
  - cbn. rewrite IH by (by constructor).
    rewrite (unchunked_step_chunk_at p s m template k Hreach Hdis Hout Hm).
    split.
    + intros [(m' & Hin & E)|[->|H]].
      * left. exists m'. split; [by right|done].
      * left. exists m. split; [by left|done].
      * by right.
    + intros [(m' & [->|Hin]%elem_of_cons & E)|H].
      * right. by left.
      * left. by exists m'.
      * right. by right.
Qed.

Lemma unchunked_run_chunk p template ms s :
  truthy (frames_per_file p) = false -> output_file p = Some template ->
  reachable p s -> ms <> [] \/ _current_frame_chunk s = Some 0 ->
  _current_frame_chunk (run ms s) = Some 0.
Proof.
  intros Hdis Hout. revert s. induction ms as [|m ms IH]; intros s Hreach Hor.
  - by destruct Hor.
  - cbn. apply IH; [by constructor|]. right.
    destruct (reachable_inv p s Hreach) as [Hinv <-].
    rewrite (process_message_chunk m s template Hinv Hout).
    by destruct (falsy_chunk_of (params s) (get_frame_index m) Hdis) as [-> _].
Qed.

(** X12. Without chunking, a writer that was given frames with
    non-negative indices, in any order, holds a chunk at exactly the
    indices it was given; closing the container records the frame numbers
    1 and 1 plus the highest index, and [stop] leaves the dataset with the
    highest index plus 1 slots. *)
Theorem unchunked_run_records_highest_frame p disk template ms :
  all_closed disk -> truthy (frames_per_file p) = false ->
  output_file p = Some template -> ms <> [] ->
  Forall (fun m => 0 <= get_frame_index m) ms ->
  (forall k, is_Some (chunk_at (run ms (set_parameters p (__init__ disk))) k) <->
     exists m, m ∈ ms /\ get_frame_index m = k) /\
  recorded_range (run ms (set_parameters p (__init__ disk))) =
    Some (1, 1 + highest ms) /\
  exists f,
    _file (run ms (set_parameters p (__init__ disk))) = Some f /\
    capacity_of (fs (stop (run ms (set_parameters p (__init__ disk)))).2) f =
      Some (highest ms + 1).
Proof.
  intros Hdisk Hdis Hout Hne Hall.
  set (s0 := set_parameters p (__init__ disk)).
  assert (reachable p s0) as Hr0 by (by constructor).
  pose proof (reachable_run p ms s0 Hr0) as Hreach.
  assert (forall k, is_Some (chunk_at (run ms s0) k) <->
            exists m, m ∈ ms /\ get_frame_index m = k) as Hslots.
  { intros k. rewrite (unchunked_run_chunk_at p template ms Hdis Hout Hall s0 k Hr0).
    split; [|by left]. intros [H|[x Hx]]; [done|]. by cbn in Hx. }
  pose proof (unchunked_run_chunk p template ms s0 Hdis Hout Hr0 (or_introl Hne)) as Hc.
  destruct (reachable_inv p _ Hreach) as [Hinv Hp].
  destruct (inv_open _ _ Hinv Hc) as (f & file & ds & Hfile & Hcore & _ & Hm1 & Hm2).
  pose proof (current_open _ _ _ _ _ Hfile Hcore) as Hcur.
  assert (_max_frame_index (run ms s0) = highest ms) as Hmark.
  { apply Z.le_antisymm.
    - destruct Hm2 as [->|Hm2]; [apply highest_nonneg|].
      assert (is_Some (chunk_at (run ms s0) (_max_frame_index (run ms s0)))) as Hat.
      { unfold chunk_at. by rewrite Hcur. }
      apply Hslots in Hat as (m & Hin & <-). by apply highest_ge.
    - apply highest_le.
      + by apply (hwm_nonneg _ (ds_chunks ds)).
      + intros m Hin.
        assert (is_Some (chunk_at (run ms s0) (get_frame_index m))) as Hat.
        { apply Hslots. by exists m. }
        unfold chunk_at in Hat. rewrite Hcur in Hat. apply Hm1 in Hat. lia. }
  split; [done|]. split.
  - rewrite (recorded_range_spec _ Hinv) by (by eexists).
    rewrite Hmark. unfold image_nr_low. rewrite Hc, Hp.
    unfold truthy in Hdis. destruct (frames_per_file p) as [n|]; [|done].
    by destruct (n =? 0).
  - exists f. split; [done|].
    rewrite (stop_spec _ Hinv). unfold closed. rewrite Hcur.
    unfold capacity_of. cbn. rewrite lookup_insert_eq. cbn. by rewrite Hmark.
Qed.

Lemma run_plugins_first_failure ps1 pf ps2 m s e :
  Forall (fun q => q s m = None) ps1 -> pf s m = Some e ->
  run_plugins (ps1 ++ pf :: ps2) m s = (Raise e, s).
Proof.
  intros Hall Hpf. induction Hall as [|q ps1 Hq Hall IH]; cbn; unfold bind, get.
  - by rewrite Hpf.
  - by rewrite Hq.
Qed.

Lemma run_plugins_all_quiet ps m s :
  Forall (fun q => q s m = None) ps -> run_plugins ps m s = (Ok tt, s).
Proof.
  intros Hall. induction Hall as [|q ps Hq Hall IH]; [done|].
  cbn. unfold bind, get. by rewrite Hq.
Qed.

(** X13. The plugins run after the frame has been stored, in the order of
    the list, on the state the write left: the call returns what they
    return, the first plugin that raises ends the call with its exception
    and keeps the later ones from running, and the frame stays stored. *)
Theorem plugins_run_after_the_write p s m template :
  reachable p s -> output_file p = Some template ->
  0 <= slot_of p (get_frame_index m) ->
  process_message m s = run_plugins _plugins m (process_message m s).2 /\
  chunk_at (process_message m s).2 (slot_of p (get_frame_index m)) =
    Some (get_data m) /\
  (Forall (fun q => q (process_message m s).2 m = None) _plugins ->
     (process_message m s).1 = Ok tt) /\
  (forall ps1 pf ps2 e,
     _plugins = ps1 ++ pf :: ps2 ->
     Forall (fun q => q (process_message m s).2 m = None) ps1 ->
     pf (process_message m s).2 m = Some e ->
     (process_message m s).1 = Raise e).
Proof.
  intros Hreach Hout Hpos. destruct (reachable_inv p s Hreach) as [Hinv <-].
  pose proof (process_message_state m s template Hinv (or_introl Hout) Hpos) as Hst.
  assert (process_message m s = run_plugins _plugins m (process_message m s).2) as Hrun.
  { rewrite Hst. rewrite (process_message_spec m s template Hinv (or_introl Hout)).
    by destruct (Z.ltb_spec (slot_of (params s) (get_frame_index m)) 0); [lia|]. }
  split; [done|]. split; [|split].
  - rewrite Hst.
    destruct (prepared_current s template m Hinv) as (g & fl & d & Hcur & _).
    by apply (stored_chunk_at _ _ _ g fl d).
  - intros Hall. rewrite Hrun. by rewrite run_plugins_all_quiet.
  - intros ps1 pf ps2 e Hps Hall Hpf. rewrite Hrun, Hps.
    exact (f_equal fst (run_plugins_first_failure ps1 pf ps2 m _ e Hall Hpf)).
Qed.

Lemma dataset_header_marked slot s : dataset_header (marked slot s) = dataset_header s.
Proof. unfold dataset_header. by rewrite marked_current. Qed.

Lemma dataset_header_fitted slot s : dataset_header (fitted slot s) = dataset_header s.
Proof.
  unfold dataset_header, fitted.
  destruct (current s) as [[[f file] ds]|] eqn:Hcur; [|by rewrite Hcur].
  destruct (_ <? _); [by rewrite Hcur|].
  pose proof (current_file _ _ _ _ Hcur) as Hfile.
  unfold current in *. cbn. rewrite Hfile in *. rewrite lookup_insert_eq. cbn.
  destruct (fs s !! f) as [file'|]; [|done].
  destruct (h5_dataset file'); [|done].
  destruct (h5_open file') eqn:Ho; [|done]. inversion Hcur; subst. by rewrite Ho.
Qed.

Lemma dataset_header_stored slot data s :
  dataset_header (stored slot data s) = dataset_header s.
Proof.
  unfold dataset_header, stored.
  destruct (current s) as [[[f file] ds]|] eqn:Hcur; [|by rewrite Hcur].
  pose proof (current_file _ _ _ _ Hcur) as Hfile.
  unfold current in *. cbn. rewrite Hfile in *. rewrite lookup_insert_eq. cbn.
  destruct (fs s !! f) as [file'|]; [|done].
  destruct (h5_dataset file'); [|done].
  destruct (h5_open file') eqn:Ho; [|done]. inversion Hcur; subst. by rewrite Ho.
Qed.

(** X14. The shape and element type of a dataset are those of the frame
    that made the writer create the container, and its name and
    compression those configured; a later frame of the same chunk leaves
    them as they are, whatever shape and type it announces. *)
Theorem dataset_header_fixed_by_first_frame p s m template :
  reachable p s -> output_file p = Some template ->
  dataset_header (process_message m s).2 =
  if bool_decide (_current_frame_chunk s = Some (chunk_of p (get_frame_index m)))
  then dataset_header s
  else Some (dataset_name p, get_frame_size m, get_frame_dtype m,
             compression p, compression_opts p).
Proof.
  intros Hreach Hout. destruct (reachable_inv p s Hreach) as [Hinv <-].
  assert (dataset_header (prepared s template m) =
    if bool_decide (_current_frame_chunk s =
                    Some (chunk_of (params s) (get_frame_index m)))
    then dataset_header s
    else Some (dataset_name (params s), get_frame_size m, get_frame_dtype m,
               compression (params s), compression_opts (params s))) as Hprep.
  { unfold prepared. rewrite dataset_header_marked, dataset_header_fitted.
    unfold target. case_bool_decide; [done|].
    unfold dataset_header, current. cbn. rewrite lookup_insert_eq. cbn.
    by rewrite !closed_params. }
  rewrite (process_message_spec m s template Hinv (or_introl Hout)).
  destruct (_ <? 0); cbn [snd]; [done|].
  by rewrite run_plugins_state, dataset_header_stored.
Qed.

(** X15. The container the writer holds is the file of its chunk: its name
    is the output template formatted with the current chunk number. *)
Theorem open_file_is_the_file_of_its_chunk p s template f c :
  reachable p s -> output_file p = Some template ->
  _file s = Some f -> _current_frame_chunk s = Some c ->
  f = format_chunk_number template c.
Proof.
  intros Hreach Hout. revert f c.
  induction Hreach as [disk Hdisk|s Hr IH|s m Hr IH|s Hr IH]; intros f c Hfile Hc.
  - done.
  - rewrite start_state in Hfile, Hc. by apply IH.
  - destruct (reachable_inv p s Hr) as [Hinv Hp]. rewrite <- Hp in Hout.
    rewrite (process_message_chunk m s template Hinv Hout) in Hc.
    destruct (prepared_current s template m Hinv) as (g & fl & d & _ & Hfp & Hft).
    assert (_file (process_message m s).2 = Some g) as Hfg.
    { rewrite (process_message_spec m s template Hinv (or_introl Hout)).
      destruct (_ <? 0); cbn [snd]; [done|]. rewrite run_plugins_state.
      by destruct (stored_fields (slot_of (params s) (get_frame_index m))
                     (get_data m) (prepared s template m)) as (-> & _). }
    assert (g = f) as -> by congruence. inversion Hc; subst c.
    revert Hft. unfold target. case_bool_decide as E.
    + intros Hfs. by apply IH.
    + cbn. congruence.
  - destruct (reachable_inv p s Hr) as [Hinv _].
    rewrite (stop_spec s Hinv) in Hfile. cbn in Hfile.
    by rewrite (closed_file s Hinv) in Hfile.
Qed.

Lemma chunk_at_chunks_of s k : chunk_at s k = chunks_of s !! k.
Proof.
  unfold chunk_at, chunks_of. by destruct (current s) as [[[f file] ds]|].
Qed.

End Writer.

(** ** A concrete backend and concrete runs *)

(** The plain use of [str.format]: each [{chunk_number}] field of the
    template is replaced by the decimal chunk number. [skip] counts the
    characters of a field that are still to be dropped. *)
Fixpoint substitute (skip : nat) (template : string) (n : Z) : string :=
  match template with
  | EmptyString => EmptyString
  | String a rest =>
      match skip with
      | S k => substitute k rest n
      | O =>
          if String.prefix "{chunk_number}" template
          then (pretty n +:+ substitute 13 rest n)%string
          else String a (substitute 0 rest n)
      end
  end.

Definition format_braces (template : string) (n : Z) : string :=
  substitute 0 template n.

(** A backend that allocates 8 slots and grows to 8 slots past the frame. *)
Definition grow_past (size frame_index : Z) : Z := frame_index + 8.

Definition chunked4 : parameters :=
  {| dataset_name := Some "data"%string;
     output_file := Some "out_{chunk_number}.h5"%string;
     frames_per_file := Some 4; compression := None; compression_opts := None;
     h5_group_attributes := ∅; h5_dataset_attributes := ∅; h5_datasets := ∅ |}.

Definition unchunked : parameters :=
  {| dataset_name := Some "data"%string;
     output_file := Some "out_{chunk_number}.h5"%string;
     frames_per_file := None; compression := None; compression_opts := None;
     h5_group_attributes := ∅; h5_dataset_attributes := ∅; h5_datasets := ∅ |}.

Definition frame (i : Z) : message :=
  {| get_frame_index := i; get_frame_size := (2, 2);
     get_frame_dtype := "uint16"%string; get_data := [Byte.x2a] |}.

(** A writer with parameters [p] over an empty disk, and the same after a
    list of frame indices was fed to it. *)
Definition fresh (p : parameters) : state := set_parameters p (__init__ ∅).

Definition feed (p : parameters) (indices : list Z) : state :=
  run format_braces 8 grow_past [] (map frame indices) (fresh p).

Lemma grow_past_fits size i : size <= i -> i < grow_past size i.
Proof. unfold grow_past. lia. Qed.

Lemma eight_nonneg : 0 <= 8.
Proof. lia. Qed.

Lemma reachable_feed p indices :
  reachable format_braces 8 grow_past [] p (feed p indices).
Proof.
  apply reachable_run. constructor. intros g file Hg.
  by rewrite lookup_empty in Hg.
Qed.

(** C1 on a run: after frame 0, frame 9 of a writer with 4 frames per file
    goes to slot 1 of chunk 3. *)
Lemma routing_chunk_and_slot_witness :
  reachable format_braces 8 grow_past [] chunked4 (feed chunked4 [0]) /\
  0 <= 9 /\
  exists s',
    _prepare_storage_for_frame format_braces 8 grow_past 9 (2, 2) "uint16"
      (feed chunked4 [0]) = (Ok 1, s') /\
    _current_frame_chunk s' = Some 3 /\ 0 <= 1 < 4.
Proof.
  split; [apply reachable_feed|]. split; [lia|].
  destruct (routing_chunk_and_slot format_braces 8 grow_past [] eight_nonneg
              grow_past_fits chunked4 (feed chunked4 [0])
              "out_{chunk_number}.h5" 9 (2, 2) "uint16"
              (reachable_feed _ _) eq_refl ltac:(lia)) as [H _].
  exact (H 4 eq_refl ltac:(lia)).
Defined.

(** C2 on the run of the spec: with 4 frames per file and frames 0 to 9,
    the container of chunk 3 holds frames 8 and 9 and records 9 and 10. *)
Lemma close_records_frame_numbers_witness :
  reachable format_braces 8 grow_past [] chunked4
    (feed chunked4 [0; 1; 2; 3; 4; 5; 6; 7; 8; 9]) /\
  _current_frame_chunk (feed chunked4 [0; 1; 2; 3; 4; 5; 6; 7; 8; 9]) = Some 3 /\
  recorded_range (feed chunked4 [0; 1; 2; 3; 4; 5; 6; 7; 8; 9]) = Some (9, 10).
Proof.
  split; [apply reachable_feed|]. split; [vm_compute; reflexivity|].
  destruct (close_records_frame_numbers format_braces 8 grow_past []
              eight_nonneg grow_past_fits chunked4
              (feed chunked4 [0; 1; 2; 3; 4; 5; 6; 7; 8; 9]) 3
              (reachable_feed _ _) ltac:(vm_compute; reflexivity)) as [H _].
  rewrite (H 4 eq_refl ltac:(lia)). vm_compute. reflexivity.
Defined.

(** C3 does not hold of the code: with 4 frames per file, frame -1 is
    accepted by a new writer, which opens the file of chunk 0 and stores
    the frame at slot 3. *)
Lemma negative_index_is_stored :
  process_message format_braces 8 grow_past [] (frame (-1)) (fresh chunked4) =
    (Ok tt, feed chunked4 [-1]) /\
  log (feed chunked4 [-1]) =
    [EvFileOpen "out_0.h5"; EvCreateDataset "out_0.h5"; EvWriteChunk "out_0.h5" 3] /\
  chunk_at (feed chunked4 [-1]) 3 = Some [Byte.x2a] /\
  log (fresh chunked4) = [].
Proof.
  split; [vm_compute; reflexivity|]. split; [vm_compute; reflexivity|].
  split; vm_compute; reflexivity.
Qed.

(** C3 as amended, on both kinds of writer. *)
Lemma negative_index_behaviour_witness :
  reachable format_braces 8 grow_past [] chunked4 (feed chunked4 []) /\
  reachable format_braces 8 grow_past [] unchunked (feed unchunked [0]) /\
  get_frame_index (frame (-1)) < 0 /\
  (exists s',
     process_message format_braces 8 grow_past [] (frame (-1)) (feed chunked4 []) =
       (Ok tt, s') /\
     _current_frame_chunk s' = Some 0 /\
     chunk_at s' 3 = Some [Byte.x2a]) /\
  process_message format_braces 8 grow_past [] (frame (-1)) (feed unchunked [0]) =
    (Raise OverflowError, feed unchunked [0]).
Proof.
  split; [apply reachable_feed|]. split; [apply reachable_feed|].
  split; [cbn; lia|]. split.
  - destruct (negative_index_behaviour format_braces 8 grow_past [] eight_nonneg
                grow_past_fits chunked4 (feed chunked4 []) (frame (-1))
                "out_{chunk_number}.h5" (reachable_feed _ _) eq_refl
                ltac:(cbn; lia)) as [_ H].
    destruct (H 4 eq_refl ltac:(lia)) as (s' & E & Hc & _ & _ & Hat).
    exists s'. split; [exact E|]. split; [exact Hc | exact Hat].
  - destruct (negative_index_behaviour format_braces 8 grow_past [] eight_nonneg
                grow_past_fits unchunked (feed unchunked [0]) (frame (-1))
                "out_{chunk_number}.h5" (reachable_feed _ _) eq_refl
                ltac:(cbn; lia)) as [H _].
    destruct (H eq_refl) as [H1 _]. apply H1. vm_compute. by eexists.
Defined.

(** C4 does not hold of the code: for frame 5 of a new writer,
    [_prepare_storage_for_frame] returns with the mark moved from 0 to 5
    while the dataset holds no chunk and no write has reached the backend. *)
Lemma mark_is_ahead_of_write :
  exists s1,
    _prepare_storage_for_frame format_braces 8 grow_past 5 (2, 2) "uint16"
      (fresh unchunked) = (Ok 5, s1) /\
    _max_frame_index (fresh unchunked) = 0 /\
    _max_frame_index s1 = 5 /\
    chunks_of s1 = ∅ /\
    log s1 = [EvFileOpen "out_0.h5"; EvCreateDataset "out_0.h5"].
Proof.
  eexists. split; [vm_compute; reflexivity|].
  split; [vm_compute; reflexivity|]. split; [vm_compute; reflexivity|].
  split; vm_compute; reflexivity.
Qed.

(** C4 as amended, on frame 9 after frame 0, 4 frames per file. *)
Lemma mark_moves_before_write_witness :
  reachable format_braces 8 grow_past [] chunked4 (feed chunked4 [0]) /\
  0 <= slot_of chunked4 (get_frame_index (frame 9)) /\
  exists s1,
    _prepare_storage_for_frame format_braces 8 grow_past 9 (2, 2) "uint16"
      (feed chunked4 [0]) = (Ok 1, s1) /\
    _max_frame_index s1 = 1 /\
    chunk_at s1 1 = None /\
    process_message format_braces 8 grow_past [] (frame 9) (feed chunked4 [0]) =
      (Ok tt, stored 1 [Byte.x2a] s1) /\
    chunk_at (stored 1 [Byte.x2a] s1) 1 = Some [Byte.x2a].
Proof.
  split; [apply reachable_feed|]. split; [vm_compute; discriminate|].
  destruct (mark_moves_before_write format_braces 8 grow_past [] eight_nonneg
              grow_past_fits chunked4 (feed chunked4 [0]) (frame 9)
              "out_{chunk_number}.h5" (reachable_feed _ _) eq_refl
              ltac:(vm_compute; discriminate))
    as (s1 & E & Hmax & Hat & Hproc & Hst & _).
  exists s1. split; [exact E|]. split; [exact Hmax|]. split; [exact Hat|].
  split; [exact Hproc | exact Hst].
Defined.

(** C5 does not hold of the code: a writer without chunking that was
    given frame -1 holds a container with no chunk and 8 slots; [stop]
    resizes it to 1 slot. *)
Lemma empty_container_is_shrunk_to_one_slot :
  (process_message format_braces 8 grow_past [] (frame (-1)) (fresh unchunked)).1 =
    Raise OverflowError /\
  chunks_of (feed unchunked [-1]) = ∅ /\
  capacity_of (fs (feed unchunked [-1])) "out_0.h5" = Some 8 /\
  capacity_of (fs (stop (feed unchunked [-1])).2) "out_0.h5" = Some 1.
Proof.
  split; [vm_compute; reflexivity|]. split; [vm_compute; reflexivity|].
  split; vm_compute; reflexivity.
Qed.

(** C5 as amended, on the run of the spec: the container of chunk 3 holds
    slots 0 and 1 and is shrunk to 2 slots. *)
Lemma close_shrinks_to_mark_witness :
  reachable format_braces 8 grow_past [] chunked4
    (feed chunked4 [0; 1; 2; 3; 4; 5; 6; 7; 8; 9]) /\
  _file (feed chunked4 [0; 1; 2; 3; 4; 5; 6; 7; 8; 9]) = Some "out_3.h5"%string /\
  capacity_of
    (fs (_close_file (feed chunked4 [0; 1; 2; 3; 4; 5; 6; 7; 8; 9])).2) "out_3.h5" =
    Some 2.
Proof.
  split; [apply reachable_feed|]. split; [vm_compute; reflexivity|].
  destruct (close_shrinks_to_mark format_braces 8 grow_past [] eight_nonneg
              grow_past_fits chunked4
              (feed chunked4 [0; 1; 2; 3; 4; 5; 6; 7; 8; 9]) "out_3.h5"
              (reachable_feed _ _) ltac:(vm_compute; reflexivity)) as [H _].
  rewrite H. vm_compute. reflexivity.
Defined.

(** C6 on a run: frame 4 after frames 0 to 3, 4 frames per file. *)
Lemma rollover_closes_once_witness :
  reachable format_braces 8 grow_past [] chunked4 (feed chunked4 [0; 1; 2; 3]) /\
  _file (feed chunked4 [0; 1; 2; 3]) = Some "out_1.h5"%string /\
  exists rest,
    log (process_message format_braces 8 grow_past [] (frame 4)
           (feed chunked4 [0; 1; 2; 3])).2 =
      log (feed chunked4 [0; 1; 2; 3]) ++
      [EvCompact "out_1.h5" 3; EvSetAttributes "out_1.h5" 1 4;
       EvPopulate "out_1.h5"; EvFileClose "out_1.h5";
       EvFileOpen "out_2.h5"; EvCreateDataset "out_2.h5"] ++ rest /\
    Forall (grows_or_stores "out_2.h5") rest.
Proof.
  split; [apply reachable_feed|]. split; [vm_compute; reflexivity|].
  destruct (rollover_closes_once format_braces 8 grow_past [] eight_nonneg
              grow_past_fits chunked4 (feed chunked4 [0; 1; 2; 3]) (frame 4)
              "out_{chunk_number}.h5" "out_1.h5" (reachable_feed _ _) eq_refl
              ltac:(vm_compute; reflexivity) ltac:(vm_compute; discriminate))
    as (rest & E & HF & _).
  exists rest. split; [exact E | exact HF].
Defined.

(** C7 on a run: two [stop]s after frame 0. *)
Lemma stop_idempotent_witness :
  reachable format_braces 8 grow_past [] chunked4 (feed chunked4 [0]) /\
  (stop (feed chunked4 [0])).1 = Ok tt /\
  stop (stop (feed chunked4 [0])).2 = (Ok tt, (stop (feed chunked4 [0])).2).
Proof.
  split; [apply reachable_feed|].
  destruct (stop_idempotent format_braces 8 grow_past [] eight_nonneg
              grow_past_fits chunked4 (feed chunked4 [0]) (reachable_feed _ _))
    as (H1 & H2 & _).
  split; [exact H1 | exact H2].
Defined.

(** C8 on a run: frames 0, 4 and 1, 4 frames per file. After frames 0 and 4
    the file of chunk 1 is closed and carries its frame numbers; frame 1
    leaves it with the chunk of frame 1 alone. *)
Lemma reopened_chunk_file_is_truncated_witness :
  reachable format_braces 8 grow_past [] chunked4 (feed chunked4 [0; 4]) /\
  (exists old,
     fs (feed chunked4 [0; 4]) !! "out_1.h5"%string = Some old /\
     h5_open old = false /\
     h5_attrs old !! "data:image_nr_high"%string = Some 1) /\
  exists file ds,
    fs (process_message format_braces 8 grow_past [] (frame 1)
          (feed chunked4 [0; 4])).2 !! "out_1.h5"%string = Some file /\
    h5_open file = true /\ h5_attrs file = ∅ /\
    h5_dataset file = Some ds /\
    ds_chunks ds = {[ 1 := [Byte.x2a] ]}.
Proof.
  split; [apply reachable_feed|].
  destruct (fs (feed chunked4 [0; 4]) !! "out_1.h5"%string) as [old|] eqn:Hold;
    [|vm_compute in Hold; discriminate Hold].
  split.
  - exists old. split; [reflexivity|].
    vm_compute in Hold. injection Hold as <-. split; vm_compute; reflexivity.
  - exact (reopened_chunk_file_is_truncated format_braces 8 grow_past []
             eight_nonneg grow_past_fits chunked4 (feed chunked4 [0; 4]) (frame 1)
             "out_{chunk_number}.h5" 4 old (reachable_feed _ _) eq_refl eq_refl
             ltac:(lia) ltac:(vm_compute; discriminate) Hold).
Defined.

(** C9 on two runs without chunking: one container received frame -1 only,
    which was not stored, the other frame 0 only. *)
Lemma empty_container_looks_like_one_frame_witness :
  reachable format_braces 8 grow_past [] unchunked (feed unchunked [-1]) /\
  reachable format_braces 8 grow_past [] unchunked (feed unchunked [0]) /\
  chunks_of (feed unchunked [-1]) = ∅ /\
  chunks_of (feed unchunked [0]) = {[ 0 := [Byte.x2a] ]} /\
  recorded_range (feed unchunked [-1]) = recorded_range (feed unchunked [0]) /\
  recorded_range (feed unchunked [-1]) = Some (1, 1).
Proof.
  split; [apply reachable_feed|]. split; [apply reachable_feed|].
  assert (chunks_of (feed unchunked [-1]) = ∅) as E1 by (vm_compute; reflexivity).
  assert (chunks_of (feed unchunked [0]) = {[ 0 := [Byte.x2a] ]}) as E2
    by (vm_compute; reflexivity).
  split; [exact E1|]. split; [exact E2|].
  exact (empty_container_looks_like_one_frame format_braces 8 grow_past []
           eight_nonneg grow_past_fits unchunked (feed unchunked [-1])
           (feed unchunked [0]) 0 (reachable_feed _ _) (reachable_feed _ _)
           ltac:(vm_compute; reflexivity) ltac:(vm_compute; reflexivity)
           ltac:(intros k; rewrite chunk_at_chunks_of, E1; apply lookup_empty)
           ltac:(intros k; rewrite chunk_at_chunks_of, E2;
                 rewrite <- elem_of_dom, dom_singleton_L, elem_of_singleton;
                 done)).
Defined.

(** C10 on two runs, 4 frames per file: frames 0 and 1, and frames 4, 5, 0
    and 1. Both hold the container of chunk 1 with slots 0 and 1 written. *)
Lemma close_resets_tracking_witness :
  reachable format_braces 8 grow_past [] chunked4 (feed chunked4 [0; 1]) /\
  reachable format_braces 8 grow_past [] chunked4 (feed chunked4 [4; 5; 0; 1]) /\
  chunks_of (feed chunked4 [0; 1]) = chunks_of (feed chunked4 [4; 5; 0; 1]) /\
  (_close_file (feed chunked4 [0; 1])).1 = Ok tt /\
  _file (_close_file (feed chunked4 [0; 1])).2 = None /\
  _current_frame_chunk (_close_file (feed chunked4 [0; 1])).2 = None /\
  _max_frame_index (_close_file (feed chunked4 [0; 1])).2 = 0 /\
  recorded_range (feed chunked4 [0; 1]) =
    recorded_range (feed chunked4 [4; 5; 0; 1]).
Proof.
  split; [apply reachable_feed|]. split; [apply reachable_feed|].
  assert (chunks_of (feed chunked4 [0; 1]) = chunks_of (feed chunked4 [4; 5; 0; 1]))
    as E by (vm_compute; reflexivity).
  split; [exact E|].
  exact (close_resets_tracking format_braces 8 grow_past [] eight_nonneg
           grow_past_fits chunked4 (feed chunked4 [0; 1])
           (feed chunked4 [4; 5; 0; 1]) 1 (reachable_feed _ _) (reachable_feed _ _)
           ltac:(vm_compute; reflexivity) ltac:(vm_compute; reflexivity)
           ltac:(intros k; by rewrite !chunk_at_chunks_of, E)).
Defined.

(** ** Runs for the further properties *)

Definition no_output : parameters :=
  {| dataset_name := Some "data"%string; output_file := None;
     frames_per_file := Some 4; compression := None; compression_opts := None;
     h5_group_attributes := ∅; h5_dataset_attributes := ∅; h5_datasets := ∅ |}.

Definition chunked_minus4 : parameters :=
  {| dataset_name := Some "data"%string;
     output_file := Some "out_{chunk_number}.h5"%string;
     frames_per_file := Some (-4); compression := None; compression_opts := None;
     h5_group_attributes := ∅; h5_dataset_attributes := ∅; h5_datasets := ∅ |}.

(** A frame of another shape and element type. *)
Definition wide_frame (i : Z) : message :=
  {| get_frame_index := i; get_frame_size := (3, 5);
     get_frame_dtype := "float32"%string; get_data := [Byte.x07] |}.

(** A plugin that does nothing and one that always raises. *)
Definition quiet_plugin : plugin := fun _ _ => None.
Definition failing_plugin : plugin := fun _ _ => Some (ValueError "plugin").

Lemma reachable_fresh ps p :
  reachable format_braces 8 grow_past ps p (fresh p).
Proof. constructor. intros g file Hg. by rewrite lookup_empty in Hg. Qed.

(** X2 on a run: a writer without [output_file], after two frames. *)
Lemma unset_output_file_never_writes_witness :
  reachable format_braces 8 grow_past [] no_output (feed no_output [0; 1]) /\
  output_file no_output = None /\
  log (feed no_output [0; 1]) = [] /\
  process_message format_braces 8 grow_past [] (frame 2) (feed no_output [0; 1]) =
    (Raise AttributeError, feed no_output [0; 1]).
Proof.
  split; [apply reachable_feed|]. split; [reflexivity|].
  destruct (unset_output_file_never_writes format_braces 8 grow_past []
              eight_nonneg grow_past_fits no_output (feed no_output [0; 1])
              (frame 2) (reachable_feed _ _) eq_refl) as (_ & Hlog & Hproc).
  split; [exact Hlog | exact Hproc].
Defined.

(** X3 on the run 0, 5, 3, 9 without chunking. *)
Lemma cached_size_matches_dataset_witness :
  reachable format_braces 8 grow_past [] unchunked (feed unchunked [0; 5; 3; 9]) /\
  exists f file ds,
    current (feed unchunked [0; 5; 3; 9]) = Some (f, file, ds) /\
    _current_dataset_size (feed unchunked [0; 5; 3; 9]) = Some (ds_shape0 ds) /\
    0 <= _max_frame_index (feed unchunked [0; 5; 3; 9]).
Proof.
  split; [apply reachable_feed|].
  destruct (current (feed unchunked [0; 5; 3; 9])) as [[[f file] ds]|] eqn:Hcur;
    [|vm_compute in Hcur; discriminate Hcur].
  exists f, file, ds. split; [reflexivity|].
  destruct (cached_size_matches_dataset format_braces 8 grow_past [] eight_nonneg
              grow_past_fits unchunked (feed unchunked [0; 5; 3; 9]) f file ds
              (reachable_feed _ _) Hcur) as (H1 & _ & _ & H4).
  split; [exact H1 | exact H4].
Defined.

(** X4 on a run: frame 1 again after frames 0, 1 and 2, 4 frames per file. *)
Lemma frame_overwrites_only_its_slot_witness :
  reachable format_braces 8 grow_past [] chunked4 (feed chunked4 [0; 1; 2]) /\
  _current_frame_chunk (feed chunked4 [0; 1; 2]) = Some 1 /\
  chunk_at (process_message format_braces 8 grow_past [] (wide_frame 1)
              (feed chunked4 [0; 1; 2])).2 1 = Some [Byte.x07] /\
  chunk_at (process_message format_braces 8 grow_past [] (wide_frame 1)
              (feed chunked4 [0; 1; 2])).2 2 = chunk_at (feed chunked4 [0; 1; 2]) 2 /\
  _max_frame_index (process_message format_braces 8 grow_past [] (wide_frame 1)
                      (feed chunked4 [0; 1; 2])).2 = 2.
Proof.
  split; [apply reachable_feed|]. split; [vm_compute; reflexivity|].
  destruct (frame_overwrites_only_its_slot format_braces 8 grow_past []
              eight_nonneg grow_past_fits chunked4 (feed chunked4 [0; 1; 2])
              (wide_frame 1) (reachable_feed _ _) ltac:(vm_compute; reflexivity)
              ltac:(vm_compute; discriminate)) as (H1 & H2 & _ & H4).
  split; [exact H1|]. split; [apply H2; vm_compute; discriminate|].
  rewrite H4. vm_compute. reflexivity.
Defined.

(** X5 on a run: frame 3 after frame 0, 4 frames per file. *)
Lemma same_chunk_no_rollover_witness :
  reachable format_braces 8 grow_past [] chunked4 (feed chunked4 [0]) /\
  _file (feed chunked4 [0]) = Some "out_1.h5"%string /\
  exists rest,
    log (process_message format_braces 8 grow_past [] (frame 3)
           (feed chunked4 [0])).2 = log (feed chunked4 [0]) ++ rest /\
    Forall (grows_or_stores "out_1.h5") rest.
Proof.
  split; [apply reachable_feed|]. split; [vm_compute; reflexivity|].
  destruct (same_chunk_no_rollover format_braces 8 grow_past [] eight_nonneg
              grow_past_fits chunked4 (feed chunked4 [0]) (frame 3) "out_1.h5"
              (reachable_feed _ _) ltac:(vm_compute; reflexivity)
              ltac:(vm_compute; reflexivity)) as (rest & E & HF & _).
  exists rest. split; [exact E | exact HF].
Defined.

(** X6 on a run: frame 8 after frames 0 and 4 leaves the file of chunk 1. *)
Lemma other_files_untouched_witness :
  reachable format_braces 8 grow_past [] chunked4 (feed chunked4 [0; 4]) /\
  _file (feed chunked4 [0; 4]) <> Some "out_1.h5"%string /\
  is_Some (fs (feed chunked4 [0; 4]) !! "out_1.h5"%string) /\
  fs (process_message format_braces 8 grow_past [] (frame 8)
        (feed chunked4 [0; 4])).2 !! "out_1.h5"%string =
    fs (feed chunked4 [0; 4]) !! "out_1.h5"%string.
Proof.
  split; [apply reachable_feed|]. split; [vm_compute; discriminate|].
  split; [vm_compute; by eexists|].
  exact (other_files_untouched format_braces 8 grow_past [] eight_nonneg
           grow_past_fits chunked4 (feed chunked4 [0; 4]) (frame 8)
           "out_{chunk_number}.h5" "out_1.h5" (reachable_feed _ _) eq_refl
           ltac:(vm_compute; discriminate) ltac:(vm_compute; discriminate)).
Defined.

(** X7 on a run: [stop] after frames 0 and 4. *)
Lemma stop_leaves_every_file_closed_witness :
  reachable format_braces 8 grow_past [] chunked4 (feed chunked4 [0; 4]) /\
  all_closed (fs (stop (feed chunked4 [0; 4])).2) /\
  _file (stop (feed chunked4 [0; 4])).2 = None.
Proof.
  split; [apply reachable_feed|].
  destruct (stop_leaves_every_file_closed format_braces 8 grow_past []
              eight_nonneg grow_past_fits chunked4 (feed chunked4 [0; 4])
              (reachable_feed _ _)) as (H1 & H2 & _).
  split; [exact H1 | exact H2].
Defined.

(** X8 on a run: frame 9 after frame 0, 4 frames per file. *)
Lemma recorded_range_contains_frame_witness :
  reachable format_braces 8 grow_past [] chunked4 (feed chunked4 [0]) /\
  0 <= slot_of chunked4 (get_frame_index (frame 9)) /\
  exists low high,
    recorded_range (process_message format_braces 8 grow_past [] (frame 9)
                      (feed chunked4 [0])).2 = Some (low, high) /\
    low <= 10 <= high.
Proof.
  split; [apply reachable_feed|]. split; [vm_compute; discriminate|].
  destruct (recorded_range_contains_frame format_braces 8 grow_past []
              eight_nonneg grow_past_fits chunked4 (feed chunked4 [0]) (frame 9)
              "out_{chunk_number}.h5" (reachable_feed _ _) eq_refl
              ltac:(vm_compute; discriminate)) as (low & high & E & Hb & _).
  exists low, high. split; [exact E | exact Hb].
Defined.

(** X9 on the run 0, 5, 3, 9 without chunking. *)
Lemma close_keeps_every_written_chunk_witness :
  reachable format_braces 8 grow_past [] unchunked (feed unchunked [0; 5; 3; 9]) /\
  exists file' ds',
    fs (stop (feed unchunked [0; 5; 3; 9])).2 !! "out_0.h5"%string = Some file' /\
    h5_dataset file' = Some ds' /\
    ds_chunks ds' = chunks_of (feed unchunked [0; 5; 3; 9]) /\
    ds_shape0 ds' = 10.
Proof.
  split; [apply reachable_feed|].
  destruct (current (feed unchunked [0; 5; 3; 9])) as [[[f file] ds]|] eqn:Hcur;
    [|vm_compute in Hcur; discriminate Hcur].
  destruct (close_keeps_every_written_chunk format_braces 8 grow_past []
              eight_nonneg grow_past_fits unchunked (feed unchunked [0; 5; 3; 9])
              f file ds (reachable_feed _ _) Hcur)
    as (file' & ds' & Hf & _ & Hd & Hch & Hsz).
  assert (f = "out_0.h5"%string) as ->.
  { apply current_file in Hcur. vm_compute in Hcur. by inversion Hcur. }
  exists file', ds'. split; [exact Hf|]. split; [exact Hd|].
  split; [unfold chunks_of; by rewrite Hcur|].
  rewrite Hsz. vm_compute. reflexivity.
Defined.

(** X10 on a run: frame 1 with -4 frames per file. *)
Lemma negative_frames_per_file_refuses_frames_witness :
  reachable format_braces 8 grow_past [] chunked_minus4 (feed chunked_minus4 []) /\
  get_frame_index (frame 1) mod (-4) <> 0 /\
  (process_message format_braces 8 grow_past [] (frame 1)
     (feed chunked_minus4 [])).1 = Raise OverflowError.
Proof.
  split; [apply reachable_feed|]. split; [vm_compute; discriminate|].
  destruct (negative_frames_per_file_refuses_frames format_braces 8 grow_past []
              eight_nonneg grow_past_fits chunked_minus4 (feed chunked_minus4 [])
              (frame 1) "out_{chunk_number}.h5" (-4) (reachable_feed _ _) eq_refl
              eq_refl ltac:(lia) ltac:(vm_compute; discriminate)) as [H _].
  exact H.
Defined.

(** X11 on the run 0 to 9, 4 frames per file. *)
Lemma container_never_exceeds_capacity_witness :
  reachable format_braces 8 grow_past [] chunked4
    (feed chunked4 [0; 1; 2; 3; 4; 5; 6; 7; 8; 9]) /\
  0 <= _max_frame_index (feed chunked4 [0; 1; 2; 3; 4; 5; 6; 7; 8; 9]) < 4 /\
  exists high,
    recorded_range (feed chunked4 [0; 1; 2; 3; 4; 5; 6; 7; 8; 9]) = Some (9, high) /\
    9 <= high <= 12.
Proof.
  split; [apply reachable_feed|].
  destruct (container_never_exceeds_capacity format_braces 8 grow_past []
              eight_nonneg grow_past_fits chunked4
              (feed chunked4 [0; 1; 2; 3; 4; 5; 6; 7; 8; 9]) 4
              (reachable_feed _ _) eq_refl ltac:(lia)) as (_ & H2 & H3).
  split; [exact H2|].
  exact (H3 3 ltac:(vm_compute; reflexivity)).
Defined.

(** X12 on the run of the spec: frames 0, 5, 3 and 9 without chunking. *)
Lemma unchunked_run_records_highest_frame_witness :
  all_closed (∅ : gmap string h5file) /\
  Forall (fun m => 0 <= get_frame_index m) (map frame [0; 5; 3; 9]) /\
  recorded_range (feed unchunked [0; 5; 3; 9]) = Some (1, 10) /\
  exists f,
    _file (feed unchunked [0; 5; 3; 9]) = Some f /\
    capacity_of (fs (stop (feed unchunked [0; 5; 3; 9])).2) f = Some 10.
Proof.
  assert (all_closed (∅ : gmap string h5file)) as Hdisk.
  { intros g file Hg. by rewrite lookup_empty in Hg. }
  assert (Forall (fun m => 0 <= get_frame_index m) (map frame [0; 5; 3; 9])) as Hall.
  { repeat constructor; cbn; lia. }
  split; [exact Hdisk|]. split; [exact Hall|].
  destruct (unchunked_run_records_highest_frame format_braces 8 grow_past []
              eight_nonneg grow_past_fits unchunked ∅ "out_{chunk_number}.h5"
              (map frame [0; 5; 3; 9]) Hdisk eq_refl eq_refl
              ltac:(discriminate) Hall) as (_ & Hrange & f & Hf & Hcap).
  split; [exact Hrange|]. exists f. split; [exact Hf | exact Hcap].
Defined.

(** X13 on a run: a quiet plugin followed by one that raises. *)
Lemma plugins_run_after_the_write_witness :
  reachable format_braces 8 grow_past [quiet_plugin; failing_plugin] chunked4
    (fresh chunked4) /\
  0 <= slot_of chunked4 (get_frame_index (frame 0)) /\
  (process_message format_braces 8 grow_past [quiet_plugin; failing_plugin]
     (frame 0) (fresh chunked4)).1 = Raise (ValueError "plugin") /\
  chunk_at
    (process_message format_braces 8 grow_past [quiet_plugin; failing_plugin]
       (frame 0) (fresh chunked4)).2 0 = Some [Byte.x2a].
Proof.
  split; [apply reachable_fresh|]. split; [vm_compute; discriminate|].
  destruct (plugins_run_after_the_write format_braces 8 grow_past
              [quiet_plugin; failing_plugin] eight_nonneg grow_past_fits chunked4
              (fresh chunked4) (frame 0) "out_{chunk_number}.h5"
              (reachable_fresh _ _) eq_refl ltac:(vm_compute; discriminate))
    as (_ & Hat & _ & Hfail).
  split; [|exact Hat].
  apply (Hfail [quiet_plugin] failing_plugin [] (ValueError "plugin") eq_refl).
  - by repeat constructor.
  - reflexivity.
Defined.

(** X14 on a run: a frame of another shape in the chunk that is open. *)
Lemma dataset_header_fixed_by_first_frame_witness :
  reachable format_braces 8 grow_past [] chunked4 (feed chunked4 [0]) /\
  dataset_header (process_message format_braces 8 grow_past [] (wide_frame 1)
                    (feed chunked4 [0])).2 =
    Some (Some "data"%string, (2, 2), "uint16"%string, None, None) /\
  dataset_header (process_message format_braces 8 grow_past [] (wide_frame 4)
                    (feed chunked4 [0])).2 =
    Some (Some "data"%string, (3, 5), "float32"%string, None, None).
Proof.
  split; [apply reachable_feed|]. split.
  - rewrite (dataset_header_fixed_by_first_frame format_braces 8 grow_past []
               eight_nonneg grow_past_fits chunked4 (feed chunked4 [0])
               (wide_frame 1) "out_{chunk_number}.h5" (reachable_feed _ _) eq_refl).
    vm_compute. reflexivity.
  - rewrite (dataset_header_fixed_by_first_frame format_braces 8 grow_past []
               eight_nonneg grow_past_fits chunked4 (feed chunked4 [0])
               (wide_frame 4) "out_{chunk_number}.h5" (reachable_feed _ _) eq_refl).
    vm_compute. reflexivity.
Defined.

(** X15 on a run: after frames 0 and 4 the open file is that of chunk 2. *)
Lemma open_file_is_the_file_of_its_chunk_witness :
  reachable format_braces 8 grow_past [] chunked4 (feed chunked4 [0; 4]) /\
  _current_frame_chunk (feed chunked4 [0; 4]) = Some 2 /\
  _file (feed chunked4 [0; 4]) = Some "out_2.h5"%string.
Proof.
  split; [apply reachable_feed|]. split; [vm_compute; reflexivity|].
  destruct (_file (feed chunked4 [0; 4])) as [f|] eqn:Hfile;
    [|vm_compute in Hfile; discriminate Hfile].
  f_equal.
  exact (open_file_is_the_file_of_its_chunk format_braces 8 grow_past []
           eight_nonneg grow_past_fits chunked4 (feed chunked4 [0; 4])
           "out_{chunk_number}.h5" f 2 (reachable_feed _ _) eq_refl Hfile
           ltac:(vm_compute; reflexivity)).
Defined.
